(** * MOEX trading-volume anomaly detector: a shallow embedding of
    [detector.py] and the properties of its pipeline.

    Conventions of the embedding.
    - Python dictionaries iterate in insertion order and the detector's
      output depends on that order (ranking of ties, order of warnings), so
      a dictionary with string keys is an association list with unique keys
      ([Dict]).  The cache directory, whose files are only looked up by
      date, is a finite map ([gmap]).
    - Monetary values are exact rationals ([Q]); integer counters are [Z].
      The two library functions with no rational counterpart, the square
      root inside [statistics.stdev] and [str.upper], and the float
      formatters of the report, are parameters of the model.
    - A Python exception is a value of [exn] carried by [result]. *)

From Stdlib Require Import QArith Qabs String Ascii List Sorted Permutation Lia.
From Stdlib Require Import DecimalString.
From stdpp Require Import gmap strings list sorting.

Local Open Scope Q_scope.

(** ** Exceptions *)

Inductive exn : Type :=
| ZeroDivisionError
| IndexError
| StatisticsError
| FetchFailed (date : string)
| LoopFellThrough.

Inductive result (A : Type) : Type :=
| Ok (a : A)
| Raise (e : exn).
Arguments Ok {A} a.
Arguments Raise {A} e.

Definition rbind {A B : Type} (m : result A) (k : A -> result B) : result B :=
  match m with
  | Ok a => k a
  | Raise e => Raise e
  end.

Notation "'let*' x ':=' m 'in' k" := (rbind m (fun x => k))
  (at level 10, x name, m at level 100, k at level 200).

(** Python's [a / b] on numbers. *)
Definition truediv (a b : Q) : result Q :=
  if Qeq_bool b 0 then Raise ZeroDivisionError else Ok (a / b).

Definition Qltb (a b : Q) : bool := negb (Qle_bool b a).

(** ** Insertion-ordered dictionaries with string keys *)

Module Dict.
Section Ops.
Context {V : Type}.

Fixpoint get (k : string) (d : list (string * V)) : option V :=
  match d with
  | [] => None
  | (k', v) :: d' => if String.eqb k k' then Some v else get k d'
  end.

Definition contains (k : string) (d : list (string * V)) : bool :=
  match get k d with Some _ => true | None => false end.

(** [d[k] = v]: an existing key keeps its position, a new key goes last. *)
Fixpoint set (k : string) (v : V) (d : list (string * V)) : list (string * V) :=
  match d with
  | [] => [(k, v)]
  | (k', v') :: d' =>
      if String.eqb k k' then (k, v) :: d' else (k', v') :: set k v d'
  end.

(** In-place update of the value stored under [k]. *)
Fixpoint alter (f : V -> V) (k : string) (d : list (string * V)) : list (string * V) :=
  match d with
  | [] => []
  | (k', v') :: d' =>
      if String.eqb k k' then (k', f v') :: d' else (k', v') :: alter f k d'
  end.

Definition keys (d : list (string * V)) : list string := map fst d.
End Ops.
End Dict.

Abbreviation dict V := (list (string * V)).

(** ** Settings *)

Definition ANOMALY_THRESHOLD_SIGMA : Q := 3.
Definition MIN_DEVIATION_PERCENT : Q := 300.
Definition MIN_AVG_VALUE : Q := 10000000.
Definition EXCLUDED_TICKER_PREFIXES : list string := ["RU000"%string].
Definition EXCLUDED_SHORTNAME_KEYWORDS : list string := ["ETF"%string].
Definition MAX_RETRIES : nat := 5.

(** [s.startswith(prefixes)] with a tuple of prefixes. *)
Definition startswith (s : string) (prefixes : list string) : bool :=
  existsb (fun p => String.prefix p s) prefixes.

(** [sub in s] on strings. *)
Fixpoint is_substring (sub s : string) : bool :=
  String.prefix sub s ||
  match s with
  | EmptyString => false
  | String _ s' => is_substring sub s'
  end.

(** ** Aggregator *)

(** A raw row [[SECID, SHORTNAME, VOLUME, VALUE, NUMTRADES]]; the numeric
    columns may be null. *)
Record Row : Type := {
  row_secid : string;
  row_shortname : string;
  row_volume : option Z;
  row_value : option Q;
  row_numtrades : option Z
}.

Record TickerInfo : Type := {
  shortname : string;
  volume : Z;
  value : Q;
  numtrades : Z
}.

(** [x or 0]: a null and a zero both give the integer 0. *)
Definition or0Z (x : option Z) : Z :=
  match x with
  | Some v => if Z.eqb v 0 then 0%Z else v
  | None => 0%Z
  end.

Definition or0Q (x : option Q) : Q :=
  match x with
  | Some v => if Qeq_bool v 0 then 0 else v
  | None => 0
  end.

Definition add_volume (v : Z) (r : TickerInfo) : TickerInfo :=
  {| shortname := shortname r; volume := volume r + v;
     value := value r; numtrades := numtrades r |}.

Definition add_value (v : Q) (r : TickerInfo) : TickerInfo :=
  {| shortname := shortname r; volume := volume r;
     value := value r + v; numtrades := numtrades r |}.

Definition add_numtrades (v : Z) (r : TickerInfo) : TickerInfo :=
  {| shortname := shortname r; volume := volume r;
     value := value r; numtrades := numtrades r + v |}.

(** The body of the loop of [aggregate_ticker_data]. *)
Definition aggregate_row (aggregated : dict TickerInfo) (row : Row) : dict TickerInfo :=
  let secid := row_secid row in
  if startswith secid EXCLUDED_TICKER_PREFIXES then aggregated
  else
    let shortname := row_shortname row in
    let volume := or0Z (row_volume row) in
    let value := or0Q (row_value row) in
    let numtrades := or0Z (row_numtrades row) in
    let aggregated :=
      if Dict.contains secid aggregated then aggregated
      else Dict.set secid {| shortname := shortname; volume := 0;
                             value := 0; numtrades := 0 |} aggregated in
    let aggregated := Dict.alter (add_volume volume) secid aggregated in
    let aggregated := Dict.alter (add_value value) secid aggregated in
    Dict.alter (add_numtrades numtrades) secid aggregated.

Definition aggregate_ticker_data (raw_data : list Row) : dict TickerInfo :=
  fold_left aggregate_row raw_data [].

(** The rows of one identifier, in feed order. *)
Definition rows_of (secid : string) (raw_data : list Row) : list Row :=
  List.filter (fun r => String.eqb (row_secid r) secid) raw_data.

(** What the aggregate holds for [secid]: nothing for an excluded or absent
    identifier, otherwise the name of its first row and the running sums of
    its rows, accumulated from zero in feed order. *)
Definition aggregate_of (secid : string) (raw_data : list Row) : option TickerInfo :=
  if startswith secid EXCLUDED_TICKER_PREFIXES then None
  else
    match rows_of secid raw_data with
    | [] => None
    | r0 :: _ =>
        let rs := rows_of secid raw_data in
        Some {| shortname := row_shortname r0;
                volume := fold_left Z.add (map (fun r => or0Z (row_volume r)) rs) 0%Z;
                value := fold_left Qplus (map (fun r => or0Q (row_value r)) rs) 0;
                numtrades := fold_left Z.add (map (fun r => or0Z (row_numtrades r)) rs) 0%Z |}
    end.

(** ** Statistics engine *)

Record StatInfo : Type := {
  st_shortname : string;
  current_value : Q;
  mean_value : Q;
  std_value : Q;
  z_score : Q;
  deviation_pct : Q;
  base_days_count : nat
}.

Definition Qsum (l : list Q) : Q := fold_right Qplus 0 l.

Definition Qlen (l : list Q) : Q := inject_Z (Z.of_nat (length l)).

(** [statistics.mean]: the exact arithmetic mean; no data is an error. *)
Definition mean (data : list Q) : result Q :=
  match data with
  | [] => Raise StatisticsError
  | _ :: _ => Ok (Qsum data / Qlen data)
  end.

(** [statistics.variance]: the sample variance, over [n - 1]. *)
Definition variance (data : list Q) : result Q :=
  if (length data <? 2)%nat then Raise StatisticsError
  else
    let* m := mean data in
    Ok (Qsum (map (fun x => (x - m) * (x - m)) data) / (Qlen data - 1)).

(** [str(n)] for a length. *)
Definition str_nat (n : nat) : string := NilEmpty.string_of_uint (Nat.to_uint n).

(** [str(n)] for an integer. *)
Definition str_int (n : Z) : string := NilEmpty.string_of_int (Z.to_int n).

Definition short_history_warning (ticker : string) (days : nat) : string :=
  "Тикер " +:+ ticker +:+ ": только " +:+ str_nat days
    +:+ " день(ей) данных вместо 5".

(** The [value] of [ticker] on each baseline day that lists it, in window
    order. *)
Definition baseline_values (base_data : list (dict TickerInfo)) (ticker : string) : list Q :=
  flat_map (fun day_data =>
              match Dict.get ticker day_data with
              | Some info => [value info]
              | None => []
              end) base_data.

Fixpoint foldM {A B : Type} (f : A -> B -> result A) (l : list B) (a : A) : result A :=
  match l with
  | [] => Ok a
  | x :: l' => let* a' := f a x in foldM f l' a'
  end.

Section Statistics.

(** The square root used by [statistics.stdev]. *)
Variable sqrt : Q -> Q.
(** [str.upper]. *)
Variable upper : string -> string.

Definition stdev (data : list Q) : result Q :=
  let* v := variance data in Ok (sqrt v).

Definition name_excluded (shortname : string) : bool :=
  existsb (fun keyword => is_substring keyword (upper shortname))
          EXCLUDED_SHORTNAME_KEYWORDS.

(** The body of the loop of [calculate_statistics], from the state
    [(stats, warnings)] before one item of [target_data] to the state
    after it. *)
Definition calculate_statistics_body (base_data : list (dict TickerInfo))
    (acc : dict StatInfo * list string) (item : string * TickerInfo)
    : result (dict StatInfo * list string) :=
  let '(stats, warnings) := acc in
  let '(ticker, target_info) := item in
  if startswith ticker EXCLUDED_TICKER_PREFIXES then Ok (stats, warnings)
  else if name_excluded (shortname target_info) then Ok (stats, warnings)
  else
    let values := baseline_values base_data ticker in
    match values with
    | [] => Ok (stats, warnings)
    | _ :: _ =>
        let* mean_value := mean values in
        let* sw :=
          (if (2 <=? length values)%nat
           then let* s := stdev values in Ok (s, warnings)
           else Ok (if Qltb 0 mean_value then mean_value * (1 # 100) else 1,
                    warnings ++ [short_history_warning ticker (length values)])) in
        let '(std_value, warnings) := sw in
        let current_value := value target_info in
        let* z_score :=
          (if Qltb 0 std_value
           then truediv (current_value - mean_value) std_value
           else Ok 0) in
        let* deviation_pct :=
          (if Qltb 0 mean_value
           then let* q := truediv (current_value - mean_value) mean_value in
                Ok (q * 100)
           else Ok 0) in
        Ok (Dict.set ticker
              {| st_shortname := shortname target_info;
                 current_value := current_value;
                 mean_value := mean_value;
                 std_value := std_value;
                 z_score := z_score;
                 deviation_pct := deviation_pct;
                 base_days_count := length values |} stats,
            warnings)
    end.

Definition calculate_statistics (base_data : list (dict TickerInfo))
    (target_data : dict TickerInfo) : result (dict StatInfo * list string) :=
  foldM (calculate_statistics_body base_data) target_data ([], []).

End Statistics.

(** ** Anomaly selector *)

Definition is_anomaly (threshold : Q) (info : StatInfo) : bool :=
  Qltb threshold (z_score info)
  && Qltb MIN_DEVIATION_PERCENT (deviation_pct info)
  && Qle_bool MIN_AVG_VALUE (mean_value info).

(** [list.sort(key=..., reverse=True)]: descending by key and stable, items
    with equal keys keep their relative order. *)
Fixpoint insert_desc {A : Type} (key : A -> Q) (x : A) (l : list A) : list A :=
  match l with
  | [] => [x]
  | y :: l' => if Qltb (key x) (key y) then y :: insert_desc key x l' else x :: y :: l'
  end.

Definition sort_desc {A : Type} (key : A -> Q) (l : list A) : list A :=
  fold_right (insert_desc key) [] l.

(** Descending by key: [a] may stand before [b]. *)
Definition desc {A : Type} (key : A -> Q) (a b : A) : Prop := key b <= key a.

Definition find_anomalies (stats : dict StatInfo) (threshold : Q) : list (string * StatInfo) :=
  let anomalies := List.filter (fun item => is_anomaly threshold (snd item)) stats in
  sort_desc (fun x => z_score (snd x)) anomalies.

(** ** Upstream fetcher *)

(** What one [requests.get] plus [raise_for_status] and [json()] gives: a
    [RequestException], or the rows under [history.data] (no rows when the
    keys are missing). *)
Inductive Response : Type :=
| RequestException
| Page (rows : list Row).

(** The observable effects of the data provider, in the order they happen. *)
Inductive Event : Type :=
| EvRequest (date : string) (start : nat)
| EvSleep (seconds : Q)
| EvCacheWrite (date : string).

Definition RETRY_DELAY : Q := 60.

(** The [while True] loop of one attempt.  [upstream] lists the answers the
    exchange gives to the coming requests, one per request; once it is
    used up every further request fails.  The result is [Some all_data]
    when the loop leaves through [break] and [None] when a request raised. *)
Fixpoint fetch_pages (date : string) (upstream : list Response) (start : nat)
    (all_data : list Row) (trace : list Event)
    : option (list Row) * list Response * list Event :=
  match upstream with
  | [] => (None, [], trace ++ [EvRequest date start])
  | RequestException :: upstream' =>
      (None, upstream', trace ++ [EvRequest date start])
  | Page rows :: upstream' =>
      let trace := trace ++ [EvRequest date start] in
      match rows with
      | [] => (Some all_data, upstream', trace)
      | _ :: _ =>
          fetch_pages date upstream' (start + 100) (all_data ++ rows)
            (if (length rows =? 100)%nat then trace ++ [EvSleep (1 # 2)] else trace)
      end
  end.

(** The [for attempt in range(1, MAX_RETRIES + 1)] loop, with [remaining]
    iterations left starting at number [attempt].  Leaving the loop without
    a [return] or a [raise] is [LoopFellThrough]. *)
Fixpoint fetch_attempts (date : string) (remaining attempt : nat)
    (upstream : list Response) (trace : list Event)
    : result (dict TickerInfo) * list Response * list Event :=
  match remaining with
  | O => (Raise LoopFellThrough, upstream, trace)
  | S remaining' =>
      match fetch_pages date upstream 0 [] trace with
      | (Some all_data, upstream', trace') =>
          (Ok (aggregate_ticker_data all_data), upstream', trace')
      | (None, upstream', trace') =>
          if (attempt <? MAX_RETRIES)%nat
          then fetch_attempts date remaining' (S attempt) upstream'
                 (trace' ++ [EvSleep RETRY_DELAY])
          else (Raise (FetchFailed date), upstream', trace')
      end
  end.

(** ** Cache store and data provider *)

(** The content of one cache file. *)
Record Snapshot : Type := {
  snap_date : string;
  snap_tickers : dict TickerInfo
}.

Record World : Type := {
  cache : gmap string Snapshot;
  upstream : list Response;
  trace : list Event
}.

Definition fetch_volumes_from_api (date : string) (w : World)
    : result (dict TickerInfo) * World :=
  let '(r, upstream', trace') :=
    fetch_attempts date MAX_RETRIES 1 (upstream w) (trace w) in
  (r, {| cache := cache w; upstream := upstream'; trace := trace' |}).

Definition load_or_fetch_data (date : string) (force : bool) (w : World)
    : result (dict TickerInfo) * World :=
  match (if negb force then cache w !! date else None) with
  | Some cached => (Ok (snap_tickers cached), w)
  | None =>
      match fetch_volumes_from_api date w with
      | (Ok data, w') =>
          (Ok data,
           {| cache := <[date := {| snap_date := date; snap_tickers := data |}]> (cache w');
              upstream := upstream w';
              trace := trace w' ++ [EvCacheWrite date] |})
      | (Raise e, w') => (Raise e, w')
      end
  end.

(** The number of network requests and of cache writes in a trace. *)
Definition is_request (e : Event) : bool :=
  match e with EvRequest _ _ => true | _ => false end.

Definition is_cache_write (e : Event) : bool :=
  match e with EvCacheWrite _ => true | _ => false end.

Definition requests_in (t : list Event) : list Event := List.filter is_request t.
Definition cache_writes_in (t : list Event) : list Event := List.filter is_cache_write t.

(** ** Report builder *)

Record ReportMetadata : Type := {
  analysis_date : string;
  base_period_start : string;
  base_period_end : string;
  base_period_days : nat;
  threshold_sigma : Q;
  total_tickers : Z;
  anomalies_found : nat
}.

Record AnomalyEntry : Type := {
  an_rank : nat;
  an_ticker : string;
  an_shortname : string;
  an_current_value : Q;
  an_avg_value : Q;
  an_std_value : Q;
  an_z_score : Q;
  an_deviation_percent : Q;
  an_base_days_count : nat
}.

Record Report : Type := {
  metadata : ReportMetadata;
  anomalies : list AnomalyEntry;
  warnings : list string
}.

(** [l[0]] and [l[-1]]. *)
Definition first_item (l : list string) : result string :=
  match l with
  | [] => Raise IndexError
  | x :: _ => Ok x
  end.

Definition last_item (l : list string) : result string :=
  match l with
  | [] => Raise IndexError
  | x :: l' => Ok (List.last l' x)
  end.

(** [enumerate(l, 1)]. *)
Definition enumerate1 {A : Type} (l : list A) : list (nat * A) :=
  combine (seq 1 (length l)) l.

(** [s * n] on a string. *)
Fixpoint str_repeat (s : string) (n : nat) : string :=
  match n with
  | O => EmptyString
  | S n' => s +:+ str_repeat s n'
  end.

Definition newline : string := String (ascii_of_nat 10) EmptyString.

(** [sep.join(lines)]. *)
Definition join (sep : string) (lines : list string) : string :=
  String.concat sep lines.

Section Reports.

(** [format(x, spec)] on a float, and [round(x, ndigits)]. *)
Variable format_float : string -> Q -> string.
Variable round_float : Q -> nat -> Q.

Definition format_number (num : Q) : string :=
  if Qle_bool 1000000000 num
  then format_float ",.1f" (num / 1000000000) +:+ " млрд"
  else if Qle_bool 1000000 num
  then format_float ",.1f" (num / 1000000) +:+ " млн"
  else format_float ",.0f" num.

Definition anomaly_lines (entry : nat * (string * StatInfo)) : list string :=
  let '(rank, (ticker, info)) := entry in
  ["[" +:+ str_nat rank +:+ "] " +:+ ticker +:+ " - " +:+ st_shortname info;
   "    Оборот: " +:+ format_number (current_value info) +:+ " руб";
   "    Средний: " +:+ format_number (mean_value info) +:+ " руб";
   "    Z-score: " +:+ format_float "+.2f" (z_score info);
   "    Отклонение: " +:+ format_float "+.1f" (deviation_pct info) +:+ "%"]
  ++ (if (base_days_count info <? 5)%nat
      then ["    ⚠️  Данных за базовый период: "
              +:+ str_nat (base_days_count info) +:+ " дней"]
      else [])
  ++ [EmptyString].

Definition generate_txt_report (anomalies : list (string * StatInfo))
    (target_date : string) (base_period : list string)
    (total_tickers : Z) (warnings : list string) : result string :=
  let rule := str_repeat "=" 70 in
  let* period_start := first_item base_period in
  let* period_end := last_item base_period in
  let header :=
    [rule;
     "АНОМАЛИИ ОБЪЕМОВ ТОРГОВ";
     "Дата анализа: " +:+ target_date;
     "Базовый период: " +:+ period_start +:+ " - " +:+ period_end
       +:+ " (" +:+ str_nat (length base_period) +:+ " дней)";
     "Порог аномалии: " +:+ format_float "" ANOMALY_THRESHOLD_SIGMA +:+ "σ";
     rule;
     EmptyString] in
  let body :=
    match anomalies with
    | [] => ["Аномалий не обнаружено"; EmptyString]
    | _ :: _ =>
        ["Обнаружено аномалий: " +:+ str_nat (length anomalies); EmptyString]
        ++ flat_map anomaly_lines (enumerate1 anomalies)
    end in
  let* share :=
    truediv (inject_Z (Z.of_nat (length anomalies))) (inject_Z total_tickers) in
  let summary :=
    [rule;
     "Статистика:";
     "- Всего тикеров: " +:+ str_int total_tickers;
     "- Аномалий найдено: " +:+ str_nat (length anomalies)
       +:+ " (" +:+ format_float ".1f" (share * 100) +:+ "%)";
     "- Использовано дней для базы: " +:+ str_nat (length base_period)] in
  let warning_lines :=
    match warnings with
    | [] => []
    | _ :: _ =>
        [EmptyString; "Предупреждения:"]
        ++ map (fun warning => "- " +:+ warning) (firstn 10 warnings)
        ++ (if (10 <? length warnings)%nat
            then ["... и еще " +:+ str_nat (length warnings - 10)
                    +:+ " предупреждений"]
            else [])
    end in
  Ok (join newline (header ++ body ++ summary ++ warning_lines ++ [rule])).

Definition anomaly_entry (entry : nat * (string * StatInfo)) : AnomalyEntry :=
  let '(rank, (ticker, info)) := entry in
  {| an_rank := rank;
     an_ticker := ticker;
     an_shortname := st_shortname info;
     an_current_value := current_value info;
     an_avg_value := mean_value info;
     an_std_value := std_value info;
     an_z_score := round_float (z_score info) 2;
     an_deviation_percent := round_float (deviation_pct info) 1;
     an_base_days_count := base_days_count info |}.

Definition generate_json_report (anomalies : list (string * StatInfo))
    (target_date : string) (base_period : list string)
    (total_tickers : Z) (warnings : list string) : result Report :=
  let* period_start := first_item base_period in
  let* period_end := last_item base_period in
  Ok {| metadata :=
          {| analysis_date := target_date;
             base_period_start := period_start;
             base_period_end := period_end;
             base_period_days := length base_period;
             threshold_sigma := ANOMALY_THRESHOLD_SIGMA;
             total_tickers := total_tickers;
             anomalies_found := length anomalies |};
        anomalies := map anomaly_entry (enumerate1 anomalies);
        warnings := warnings |}.

End Reports.

(** ** The analysis run *)

(** How a run of [analyze_date] ends: [sys.exit(code)], the two reports
    handed to [save_reports], or an exception nobody catches. *)
Inductive Outcome : Type :=
| Exited (code : nat)
| Reported (txt : string) (json : Report)
| Uncaught (e : exn).

(** The loop over the baseline dates: a date that fails to load is skipped. *)
Fixpoint load_base_data (base_dates : list string) (force : bool) (w : World)
    : list (dict TickerInfo) * World :=
  match base_dates with
  | [] => ([], w)
  | date :: base_dates' =>
      match load_or_fetch_data date force w with
      | (Ok data, w') =>
          let '(base_data, w'') := load_base_data base_dates' force w' in
          (data :: base_data, w'')
      | (Raise _, w') => load_base_data base_dates' force w'
      end
  end.

Section Pipeline.

Variable sqrt : Q -> Q.
Variable upper : string -> string.
Variable format_float : string -> Q -> string.
Variable round_float : Q -> nat -> Q.

(** [save_reports]: the text report is built first, then the JSON one. *)
Definition save_reports (anomalies : list (string * StatInfo))
    (target_date : string) (base_period : list string)
    (total_tickers : Z) (warnings : list string) : Outcome :=
  match generate_txt_report format_float anomalies target_date base_period
          total_tickers warnings with
  | Raise e => Uncaught e
  | Ok txt_content =>
      match generate_json_report round_float anomalies target_date base_period
              total_tickers warnings with
      | Raise e => Uncaught e
      | Ok json_content => Reported txt_content json_content
      end
  end.

(** [analyze_date] once the target date is parsed and the baseline dates
    are known ([base_dates] is what [get_trading_dates] returned). *)
Definition analyze_date (base_dates : list string) (target_date : string)
    (force : bool) (w : World) : Outcome * World :=
  match first_item base_dates with
  | Raise e => (Uncaught e, w)
  | Ok _ =>
      let '(base_data, w1) := load_base_data base_dates force w in
      match base_data with
      | [] => (Exited 1, w1)
      | _ :: _ =>
          match load_or_fetch_data target_date force w1 with
          | (Raise _, w2) => (Exited 1, w2)
          | (Ok target_data, w2) =>
              match target_data with
              | [] => (Exited 0, w2)
              | _ :: _ =>
                  match calculate_statistics sqrt upper base_data target_data with
                  | Raise e => (Uncaught e, w2)
                  | Ok (stats, warnings) =>
                      let anomalies := find_anomalies stats ANOMALY_THRESHOLD_SIGMA in
                      (save_reports anomalies target_date base_dates
                         (Z.of_nat (length target_data)) warnings, w2)
                  end
              end
          end
      end
  end.

End Pipeline.

(** ** Executable stand-ins for the library functions

    Used to run the model on concrete inputs. *)

(** A rational square root, exact on squares of rationals and otherwise
    rounded down to six decimals of the scaled argument. *)
Definition sqrt_approx (q : Q) : Q :=
  let n := Qnum q in
  let d := Z.pos (Qden q) in
  if (n <=? 0)%Z then 0
  else
    let r := Z.sqrt (n * d) in
    if (r * r =? n * d)%Z then Qred (Qmake r (Qden q))
    else Qred (Qmake (Z.sqrt (n * d * 1000000000000)) (Qden q * 1000000)).

Definition ascii_upper (c : ascii) : ascii :=
  let n := nat_of_ascii c in
  if ((97 <=? n) && (n <=? 122))%nat then ascii_of_nat (n - 32) else c.

Fixpoint upper_ascii (s : string) : string :=
  match s with
  | EmptyString => EmptyString
  | String c s' => String (ascii_upper c) (upper_ascii s')
  end.

(** Rounding to [ndigits] decimals, half away from zero. *)
Definition round_half_up (x : Q) (ndigits : nat) : Q :=
  let scale := (10 ^ Z.of_nat ndigits)%Z in
  let y := x * inject_Z scale + (if Qle_bool 0 x then 1 # 2 else - (1 # 2)) in
  Qred (Qmake (Z.quot (Qnum y) (Z.pos (Qden y))) (Z.to_pos scale)).

(** A plain fixed-point rendering with one decimal; the format
    specification is not interpreted. *)
Definition format_plain (spec : string) (x : Q) : string :=
  let r := round_half_up x 1 in
  let tenths := (Qnum (r * 10) / Z.pos (Qden (r * 10)))%Z in
  (if (tenths <? 0)%Z then "-" else "")
    +:+ str_int (Z.quot (Z.abs tenths) 10) +:+ "."
    +:+ str_int (Z.rem (Z.abs tenths) 10).

(** ** Scripts of upstream answers and expected traces *)

(** The events of one page that came back with rows: the request at its
    offset, and the pause when the page is full. *)
Definition page_events (date : string) (indexed_page : nat * list Row) : list Event :=
  let '(i, rows) := indexed_page in
  EvRequest date (100 * i)
  :: (if (length rows =? 100)%nat then [EvSleep (1 # 2)] else []).

(** The answers consumed by an attempt that gets some pages and then fails. *)
Definition failing_attempt (pages : list (list Row)) : list Response :=
  map Page pages ++ [RequestException].

(** ** Sample data *)

Definition sample_stat (name : string) (z : Q) : StatInfo :=
  {| st_shortname := name; current_value := 100000000; mean_value := 20000000;
     std_value := 1000000; z_score := z; deviation_pct := 400;
     base_days_count := 5 |}.

(** Two instruments that pass the three tests with the same z-score. *)
Definition tie_stats : dict StatInfo :=
  [("AAAA"%string, sample_stat "Alpha" 80); ("BBBB"%string, sample_stat "Beta" 80)].

(** Three instruments with pairwise different z-scores; the last one fails
    the z-score test at threshold 3. *)
Definition ranked_stats : dict StatInfo :=
  [("AAAA"%string, sample_stat "Alpha" 7); ("BBBB"%string, sample_stat "Beta" 80);
   ("CCCC"%string, sample_stat "Gamma" 2)].

Definition day_record (name : string) (v : Q) : TickerInfo :=
  {| shortname := name; volume := 1000; value := v; numtrades := 10 |}.

(** A baseline of one day and a target day for the same instrument. *)
Definition one_day_base : list (dict TickerInfo) :=
  [[("SBER"%string, day_record "Sberbank" 100)]].

Definition sber_target : dict TickerInfo :=
  [("SBER"%string, day_record "Sberbank" 500)].

(** The message the specification asks for: the number of available days
    and the length of the baseline window, both generic. *)
Definition spec_short_history_warning (ticker : string) (days window : nat) : string :=
  "Тикер " +:+ ticker +:+ ": только " +:+ str_nat days
    +:+ " день(ей) данных вместо " +:+ str_nat window.

(** A baseline of five days with the same value on each. *)
Definition five_day_base : list (dict TickerInfo) :=
  repeat [("SBER"%string, day_record "Sberbank" 100)] 5.

Definition sample_row (secid : string) (v : Q) : Row :=
  {| row_secid := secid; row_shortname := secid; row_volume := Some 10%Z;
     row_value := Some v; row_numtrades := None |}.

(** A first page with a single row, then an empty page, then more data that
    must stay unread. *)
Definition short_page_script : list Response :=
  [Page [sample_row "SBER" 100]; Page []; Page [sample_row "GAZP" 7]].

Definition empty_world : World :=
  {| cache := ∅; upstream := []; trace := [] |}.

(** A world whose cache already holds the snapshot of one date and whose
    upstream would answer with data if asked. *)
Definition cached_world : World :=
  {| cache := {[ "2026-01-30"%string :=
                   {| snap_date := "2026-01-30"; snap_tickers := sber_target |} ]};
     upstream := short_page_script;
     trace := [] |}.

(** A world with an empty cache whose upstream fails five times and would
    answer afterwards. *)
Definition failing_world : World :=
  {| cache := ∅;
     upstream := repeat RequestException 5 ++ short_page_script;
     trace := [] |}.

(** A world with an empty cache whose upstream has no rows for the date. *)
Definition holiday_world : World :=
  {| cache := ∅; upstream := [Page []]; trace := [] |}.

(** A feed with two sessions of one share, the second with null value and
    trade count, one bond-style identifier and one more share. *)
Definition sample_feed : list Row :=
  [ {| row_secid := "SBER"; row_shortname := "Sberbank"; row_volume := Some 10%Z;
       row_value := Some 100; row_numtrades := Some 3%Z |};
    {| row_secid := "RU000A0JX0J2"; row_shortname := "Bond"; row_volume := Some 1%Z;
       row_value := Some 50; row_numtrades := Some 1%Z |};
    {| row_secid := "SBER"; row_shortname := "Sberbank TQBR"; row_volume := Some 5%Z;
       row_value := None; row_numtrades := None |};
    {| row_secid := "GAZP"; row_shortname := "Gazprom"; row_volume := None;
       row_value := Some (7 # 2); row_numtrades := Some 2%Z |} ].

(** ** Trading calendar *)

(** A day is its proleptic Gregorian ordinal, [date.toordinal()]: day 1 is
    Monday 0001-01-01, the earliest [datetime].  [weekday] is
    [datetime.weekday()], Monday 0 to Sunday 6. *)
Definition weekday (day : nat) : nat := (day + 6) mod 7.

(** The [while len(dates) < days] loop of [get_trading_dates], by recursion
    on the day it looks at.  [current -= timedelta(days=1)] below day 1 is
    an [OverflowError], rendered as [None]; [strftime] is
    [d.strftime("%Y-%m-%d")]. *)
Fixpoint trading_dates_loop (strftime : nat -> string) (days : Z)
    (current : nat) (dates : list string) : option (list string) :=
  if (Z.of_nat (length dates) <? days)%Z then
    match current with
    | O => None
    | S previous =>
        let dates := if (weekday current <? 5)%nat
                     then dates ++ [strftime current] else dates in
        if (previous =? 0)%nat then None
        else trading_dates_loop strftime days previous dates
    end
  else Some dates.

Definition get_trading_dates (strftime : nat -> string) (end_date : nat) (days : Z)
    : option (list string) :=
  match trading_dates_loop strftime days end_date [] with
  | Some dates => Some (rev dates)
  | None => None
  end.

(** The same loop on days instead of their renderings. *)
Fixpoint trading_days_loop (days : Z) (current : nat) (found : list nat)
    : option (list nat) :=
  if (Z.of_nat (length found) <? days)%Z then
    match current with
    | O => None
    | S previous =>
        let found := if (weekday current <? 5)%nat then found ++ [current] else found in
        if (previous =? 0)%nat then None
        else trading_days_loop days previous found
    end
  else Some found.

(** ** Initialisation run *)

(** How [init_historical_data] ends. *)
Inductive InitOutcome : Type :=
| InitCompleted
| InitIndexError
| InitOverflowError.

(** The loop over the dates: every date is loaded with [force=False] and an
    exception is printed and skipped. *)
Fixpoint init_loop (dates : list string) (w : World) : World :=
  match dates with
  | [] => w
  | date :: dates' => init_loop dates' (snd (load_or_fetch_data date false w))
  end.

(** [init_historical_data(days)] run on day [now]. *)
Definition init_historical_data (strftime : nat -> string) (now : nat) (days : Z)
    (w : World) : InitOutcome * World :=
  match get_trading_dates strftime now days with
  | None => (InitOverflowError, w)
  | Some dates =>
      match first_item dates with
      | Raise _ => (InitIndexError, w)
      | Ok _ => (InitCompleted, init_loop dates w)
      end
  end.

(** ** Counting attempts in a trace *)

(** An attempt starts with the request at offset 0; the retry pause is the
    sleep of [RETRY_DELAY] seconds. *)
Definition is_attempt_start (e : Event) : bool :=
  match e with
  | EvRequest _ O => true
  | _ => false
  end.

Definition is_retry_pause (e : Event) : bool :=
  match e with
  | EvSleep seconds => Qeq_bool seconds RETRY_DELAY
  | _ => false
  end.

Definition attempts_in (t : list Event) : nat := length (List.filter is_attempt_start t).
Definition retry_pauses_in (t : list Event) : nat := length (List.filter is_retry_pause t).

(** An event of a run that only tried to fetch the given dates: a request
    for one of them or a pause, never a cache write. *)
Definition fetch_event_for (dates : list string) (e : Event) : Prop :=
  match e with
  | EvRequest date _ => date ∈ dates
  | EvSleep _ => True
  | EvCacheWrite _ => False
  end.

(** ** Which instruments are scored, and what their statistics are *)

Section Scoring.

Variable sqrt : Q -> Q.
Variable upper : string -> string.
Variable base_data : list (dict TickerInfo).

(** An item of the target snapshot passes the three [continue] tests of
    [calculate_statistics]: identifier prefix, name keyword, and at least
    one baseline value. *)
Definition is_scored (item : string * TickerInfo) : bool :=
  negb (startswith (fst item) EXCLUDED_TICKER_PREFIXES)
  && negb (name_excluded upper (shortname (snd item)))
  && negb (Nat.eqb (length (baseline_values base_data (fst item))) 0).

(** A scored item with a single baseline value. *)
Definition has_short_history (item : string * TickerInfo) : bool :=
  is_scored item && Nat.eqb (length (baseline_values base_data (fst item))) 1.

(** The statistics [st] stored for a scored item, field by field. *)
Definition entry_of (ticker : string) (target_info : TickerInfo) (st : StatInfo) : Prop :=
  let values := baseline_values base_data ticker in
  let m := Qsum values / Qlen values in
  st_shortname st = shortname target_info
  /\ current_value st = value target_info
  /\ base_days_count st = length values
  /\ mean_value st = m
  /\ std_value st
     = (if (2 <=? length values)%nat
        then sqrt (Qsum (map (fun x => (x - m) * (x - m)) values) / (Qlen values - 1))
        else if Qltb 0 m then m * (1 # 100) else 1)
  /\ z_score st
     = (if Qltb 0 (std_value st) then (value target_info - m) / std_value st else 0)
  /\ deviation_pct st
     = (if Qltb 0 m then (value target_info - m) / m * 100 else 0).

End Scoring.

(** A target day with a share, a fund, a bond-style identifier and a share
    that has no baseline, over the one-day baseline. *)
Definition mixed_target : dict TickerInfo :=
  [("SBER"%string, day_record "Sberbank" 500);
   ("FXRL"%string, day_record "FinEx etf Russia" 300);
   ("RU000A0JX0J2"%string, day_record "Bond" 50);
   ("YNDX"%string, day_record "Yandex" 900)].

Definition sumZ (l : list Z) : Z := fold_right Z.add 0%Z l.

(** A world that has a baseline day and the target day in its cache and an
    upstream that is not to be asked. *)
Definition two_day_world : World :=
  {| cache := <["2026-01-29"%string :=
                 {| snap_date := "2026-01-29";
                    snap_tickers := [("SBER"%string, day_record "Sberbank" 100)] |}]>
                (cache cached_world);
     upstream := short_page_script;
     trace := [] |}.

(** ** The analysis run, from the date string *)

Section PipelineFromString.

Variable sqrt : Q -> Q.
Variable upper : string -> string.
Variable format_float : string -> Q -> string.
Variable round_float : Q -> nat -> Q.
(** [datetime.strptime(s, "%Y-%m-%d")], [None] for a [ValueError], and
    [d.strftime("%Y-%m-%d")]. *)
Variable strptime : string -> option nat.
Variable strftime : nat -> string.

(** The head of [analyze_date]: the date string is parsed, a string that is
    no date ends the run with [sys.exit(1)], and the baseline is the five
    trading days up to the day before the target.  [None] is an uncaught
    [OverflowError] of the date arithmetic. *)
Definition analyze_date_from_string (target_date : string) (force : bool) (w : World)
    : option (Outcome * World) :=
  match strptime target_date with
  | None => Some (Exited 1, w)
  | Some target_dt =>
      match target_dt with
      | O => None
      | S yesterday =>
          if (yesterday =? 0)%nat then None
          else
            match get_trading_dates strftime yesterday 5 with
            | None => None
            | Some base_dates =>
                Some (analyze_date sqrt upper format_float round_float
                        base_dates target_date force w)
            end
      end
  end.

End PipelineFromString.

(** A parser for the sample runs: the day number in decimal. *)
Definition parse_day (s : string) : option nat :=
  match NilEmpty.uint_of_string s with
  | Some d => Some (Nat.of_uint d)
  | None => None
  end.

(** * Properties *)

(** ** Dictionaries *)

Module DictFacts.
Section Facts.
Context {V : Type}.
Implicit Types (d : dict V) (k : string) (v : V).

Lemma get_set k k' v d :
  Dict.get k (Dict.set k' v d) = if String.eqb k k' then Some v else Dict.get k d.
Proof.
  induction d as [|[k0 v0] d IH]; simpl.
  - destruct (String.eqb_spec k k'); reflexivity.
  - destruct (String.eqb_spec k' k0) as [->|Hne]; simpl.
    + destruct (String.eqb_spec k k0); reflexivity.
    + destruct (String.eqb_spec k k0) as [->|Hne'].
      * destruct (String.eqb_spec k0 k'); congruence.
      * exact IH.
Qed.

Lemma get_alter (f : V -> V) k k' d :
  Dict.get k (Dict.alter f k' d)
  = if String.eqb k k' then option_map f (Dict.get k d) else Dict.get k d.
Proof.
  induction d as [|[k0 v0] d IH]; simpl.
  - destruct (String.eqb k k'); reflexivity.
  - destruct (String.eqb_spec k' k0) as [->|Hne]; simpl.
    + destruct (String.eqb_spec k k0); reflexivity.
    + destruct (String.eqb_spec k k0) as [->|Hne'].
      * destruct (String.eqb_spec k0 k'); congruence.
      * exact IH.
Qed.

Lemma keys_alter (f : V -> V) k d : Dict.keys (Dict.alter f k d) = Dict.keys d.
Proof.
  induction d as [|[k0 v0] d IH]; simpl; [reflexivity|].
  destruct (String.eqb k k0); simpl; [reflexivity|].
  f_equal. exact IH.
Qed.

Lemma elem_of_keys k d : k ∈ Dict.keys d <-> Dict.get k d <> None.
Proof.
  induction d as [|[k0 v0] d IH]; simpl.
  - split; [intros H; inversion H | congruence].
  - rewrite elem_of_cons, IH.
    destruct (String.eqb_spec k k0); split; intros; try congruence; auto.
    + destruct H; [contradiction | assumption].
Qed.

Lemma keys_set k v d :
  Dict.keys (Dict.set k v d)
  = if Dict.contains k d then Dict.keys d else Dict.keys d ++ [k].
Proof.
  unfold Dict.contains.
  induction d as [|[k0 v0] d IH]; simpl; [reflexivity|].
  destruct (String.eqb_spec k k0) as [->|Hne]; simpl; [reflexivity|].
  rewrite IH. destruct (Dict.get k d); reflexivity.
Qed.

Lemma NoDup_keys_set k v d :
  NoDup (Dict.keys d) -> NoDup (Dict.keys (Dict.set k v d)).
Proof.
  intros Hd. rewrite keys_set. unfold Dict.contains.
  destruct (Dict.get k d) eqn:Hk; [assumption|].
  apply NoDup_app. split; [assumption|]. split.
  - intros x Hx Hx'. apply list_elem_of_singleton in Hx'. subst x.
    apply elem_of_keys in Hx. congruence.
  - apply NoDup_singleton.
Qed.

Lemma get_elem_of k v d : Dict.get k d = Some v -> (k, v) ∈ d.
Proof.
  induction d as [|[k0 v0] d IH]; simpl; [congruence|].
  destruct (String.eqb_spec k k0) as [->|Hne]; intros H.
  - injection H as ->. apply list_elem_of_here.
  - apply list_elem_of_further, IH, H.
Qed.

Lemma elem_of_get k v d : NoDup (Dict.keys d) -> (k, v) ∈ d -> Dict.get k d = Some v.
Proof.
  induction d as [|[k0 v0] d IH]; simpl; intros Hnd Hin.
  - inversion Hin.
  - apply NoDup_cons in Hnd as [Hk0 Hnd].
    apply elem_of_cons in Hin as [Heq|Hin].
    + injection Heq as -> ->. rewrite String.eqb_refl. reflexivity.
    + destruct (String.eqb_spec k k0) as [->|Hne]; [|auto].
      exfalso. apply Hk0. unfold Dict.keys.
      apply list_elem_of_fmap. exists (k0, v). auto.
Qed.
End Facts.
End DictFacts.

(** ** Aggregator *)

#[local] Arguments startswith : simpl never.

Section AggregatorFacts.
Import DictFacts.

Lemma rows_of_app secid raw r :
  rows_of secid (raw ++ [r])
  = rows_of secid raw ++ (if String.eqb (row_secid r) secid then [r] else []).
Proof.
  unfold rows_of. rewrite List.filter_app. simpl.
  destruct (String.eqb (row_secid r) secid); reflexivity.
Qed.

(** One row changes only the record of its own identifier. *)
Lemma get_aggregate_row k agg r :
  Dict.get k (aggregate_row agg r)
  = if startswith (row_secid r) EXCLUDED_TICKER_PREFIXES then Dict.get k agg
    else if String.eqb k (row_secid r) then
      Some (add_numtrades (or0Z (row_numtrades r))
             (add_value (or0Q (row_value r))
               (add_volume (or0Z (row_volume r))
                 (match Dict.get k agg with
                  | Some rec => rec
                  | None => {| shortname := row_shortname r; volume := 0;
                               value := 0; numtrades := 0 |}
                  end))))
    else Dict.get k agg.
Proof.
  unfold aggregate_row.
  destruct (startswith (row_secid r) EXCLUDED_TICKER_PREFIXES); [reflexivity|].
  rewrite !get_alter. unfold Dict.contains.
  destruct (String.eqb_spec k (row_secid r)) as [->|Hne].
  - destruct (Dict.get (row_secid r) agg) eqn:Hget.
    + rewrite Hget. reflexivity.
    + rewrite get_set, String.eqb_refl. reflexivity.
  - destruct (Dict.get (row_secid r) agg); [reflexivity|].
    rewrite get_set. destruct (String.eqb_spec k (row_secid r)); congruence.
Qed.

Lemma NoDup_keys_aggregate_row agg r :
  NoDup (Dict.keys agg) -> NoDup (Dict.keys (aggregate_row agg r)).
Proof.
  intros Hnd. unfold aggregate_row.
  destruct (startswith (row_secid r) EXCLUDED_TICKER_PREFIXES); [assumption|].
  rewrite !keys_alter.
  destruct (Dict.contains (row_secid r) agg); [assumption|].
  apply NoDup_keys_set, Hnd.
Qed.

Lemma NoDup_keys_aggregate raw :
  NoDup (Dict.keys (aggregate_ticker_data raw)).
Proof.
  unfold aggregate_ticker_data.
  induction raw as [|r raw IH] using rev_ind; simpl.
  - apply NoDup_nil_2.
  - rewrite fold_left_app. simpl. apply NoDup_keys_aggregate_row, IH.
Qed.

Lemma get_aggregate k raw :
  Dict.get k (aggregate_ticker_data raw) = aggregate_of k raw.
Proof.
  unfold aggregate_ticker_data.
  induction raw as [|r raw IH] using rev_ind.
  - unfold aggregate_of. simpl.
    destruct (startswith k EXCLUDED_TICKER_PREFIXES); reflexivity.
  - rewrite fold_left_app. simpl. rewrite get_aggregate_row, IH.
    unfold aggregate_of. rewrite rows_of_app.
    destruct (String.eqb_spec k (row_secid r)) as [->|Hne].
    + rewrite String.eqb_refl.
      destruct (startswith (row_secid r) EXCLUDED_TICKER_PREFIXES) eqn:Hex;
        [reflexivity|].
      destruct (rows_of (row_secid r) raw) as [|r0 rs] eqn:Hrows; simpl.
      * reflexivity.
      * rewrite !map_app, !fold_left_app. reflexivity.
    + destruct (String.eqb_spec (row_secid r) k) as [Heq|_]; [congruence|].
      rewrite app_nil_r.
      destruct (startswith (row_secid r) EXCLUDED_TICKER_PREFIXES); reflexivity.
Qed.
End AggregatorFacts.

(** C2.  For every list of raw rows the aggregate has at most one record per
    identifier, none of its keys starts with an excluded prefix, and the
    record of a surviving identifier carries the display name of the first
    row seen for it and, for volume, value and trade count, the sums over
    its rows, with a null field counted as zero. *)
Theorem aggregate_ticker_data_spec (raw_data : list Row) :
  let aggregated := aggregate_ticker_data raw_data in
  NoDup (Dict.keys aggregated)
  /\ (forall secid, secid ∈ Dict.keys aggregated ->
        startswith secid EXCLUDED_TICKER_PREFIXES = false
        /\ rows_of secid raw_data <> [])
  /\ (forall secid r0 rs,
        startswith secid EXCLUDED_TICKER_PREFIXES = false ->
        rows_of secid raw_data = r0 :: rs ->
        Dict.get secid aggregated
        = Some {| shortname := row_shortname r0;
                  volume := fold_left Z.add
                              (map (fun r => or0Z (row_volume r)) (r0 :: rs)) 0%Z;
                  value := fold_left Qplus
                             (map (fun r => or0Q (row_value r)) (r0 :: rs)) 0;
                  numtrades := fold_left Z.add
                                 (map (fun r => or0Z (row_numtrades r)) (r0 :: rs)) 0%Z |}).
Proof.
  intros aggregated. subst aggregated. split; [|split].
  - apply NoDup_keys_aggregate.
  - intros secid Hin. apply DictFacts.elem_of_keys in Hin.
    rewrite get_aggregate in Hin. unfold aggregate_of in Hin.
    destruct (startswith secid EXCLUDED_TICKER_PREFIXES); [congruence|].
    split; [reflexivity|].
    destruct (rows_of secid raw_data); congruence.
  - intros secid r0 rs Hex Hrows. rewrite get_aggregate. unfold aggregate_of.
    rewrite Hex, Hrows. reflexivity.
Qed.

Example aggregate_sample_feed :
  aggregate_ticker_data sample_feed
  = [("SBER"%string, {| shortname := "Sberbank"; volume := 15;
                        value := 0 + 100 + 0; numtrades := 3 |});
     ("GAZP"%string, {| shortname := "Gazprom"; volume := 0;
                        value := 0 + (7 # 2); numtrades := 2 |})].
Proof. reflexivity. Qed.

Lemma aggregate_ticker_data_spec_witness :
  startswith "SBER" EXCLUDED_TICKER_PREFIXES = false
  /\ rows_of "SBER" sample_feed
     = [ {| row_secid := "SBER"; row_shortname := "Sberbank";
            row_volume := Some 10%Z; row_value := Some 100;
            row_numtrades := Some 3%Z |};
         {| row_secid := "SBER"; row_shortname := "Sberbank TQBR";
            row_volume := Some 5%Z; row_value := None; row_numtrades := None |} ]
  /\ Dict.get "SBER" (aggregate_ticker_data sample_feed)
     = Some {| shortname := "Sberbank"; volume := 15; value := 0 + 100 + 0;
               numtrades := 3 |}
  /\ "RU000A0JX0J2"%string ∉ Dict.keys (aggregate_ticker_data sample_feed).
Proof.
  split; [reflexivity|]. split; [reflexivity|]. split.
  - exact (proj2 (proj2 (aggregate_ticker_data_spec sample_feed))
             "SBER"%string _ _ eq_refl eq_refl).
  - intros Hin.
    apply (proj1 (proj2 (aggregate_ticker_data_spec sample_feed))) in Hin as [Hex _].
    vm_compute in Hex. discriminate Hex.
Defined.

(** ** Anomaly selector *)

Lemma Qltb_lt (a b : Q) : Qltb a b = true <-> a < b.
Proof.
  unfold Qltb. rewrite negb_true_iff. split.
  - intros H. apply Qnot_le_lt. intros Hle. apply Qle_bool_iff in Hle. congruence.
  - intros H. destruct (Qle_bool b a) eqn:Hle; [|reflexivity].
    apply Qle_bool_iff in Hle. exfalso. exact (Qlt_not_le _ _ H Hle).
Qed.

Lemma Qltb_ge (a b : Q) : Qltb a b = false <-> b <= a.
Proof.
  unfold Qltb. rewrite negb_false_iff. apply Qle_bool_iff.
Qed.

Lemma is_anomaly_iff (threshold : Q) (info : StatInfo) :
  is_anomaly threshold info = true
  <-> threshold < z_score info
      /\ MIN_DEVIATION_PERCENT < deviation_pct info
      /\ MIN_AVG_VALUE <= mean_value info.
Proof.
  unfold is_anomaly. rewrite !andb_true_iff, !Qltb_lt, Qle_bool_iff. tauto.
Qed.

Section SortFacts.
Context {A : Type} (key : A -> Q).

#[local] Instance desc_trans : Transitive (desc key).
Proof. intros a b c Hab Hbc. unfold desc in *. eapply Qle_trans; eassumption. Qed.

Lemma insert_desc_perm x l : insert_desc key x l ≡ₚ x :: l.
Proof.
  induction l as [|y l IH]; simpl; [reflexivity|].
  destruct (Qltb (key x) (key y)); [|reflexivity].
  rewrite IH. apply Permutation_swap.
Qed.

Lemma sort_desc_perm l : sort_desc key l ≡ₚ l.
Proof.
  induction l as [|x l IH]; simpl; [reflexivity|].
  rewrite insert_desc_perm, IH. reflexivity.
Qed.

Lemma insert_desc_sorted x l : Sorted (desc key) l -> Sorted (desc key) (insert_desc key x l).
Proof.
  induction l as [|y l IH]; simpl; intros Hs.
  - repeat constructor.
  - destruct (Qltb (key x) (key y)) eqn:Hlt.
    + apply Sorted_inv in Hs as [Hs Hhd]. constructor; [apply IH, Hs|].
      destruct l as [|z l]; simpl.
      * constructor. apply Qltb_lt in Hlt. apply Qlt_le_weak, Hlt.
      * destruct (Qltb (key x) (key z)).
        -- constructor. inversion Hhd; assumption.
        -- constructor. apply Qltb_lt in Hlt. apply Qlt_le_weak, Hlt.
    + constructor; [assumption|]. constructor. apply Qltb_ge, Hlt.
Qed.

Lemma sort_desc_sorted l : Sorted (desc key) (sort_desc key l).
Proof.
  induction l as [|x l IH]; simpl; [constructor|].
  apply insert_desc_sorted, IH.
Qed.

(** The sort depends only on the items, not on their order, as long as
    items with equal keys are equal. *)
Lemma sort_desc_perm_eq l1 l2 :
  l1 ≡ₚ l2 ->
  (forall a b, a ∈ l1 -> b ∈ l1 -> key a == key b -> a = b) ->
  sort_desc key l1 = sort_desc key l2.
Proof.
  intros Hperm Hinj.
  apply (Sorted_unique_strong (desc key)).
  - intros a b Ha Hb Hab Hba. apply Hinj.
    + rewrite sort_desc_perm in Ha. exact Ha.
    + rewrite sort_desc_perm, <- Hperm in Hb. exact Hb.
    + unfold desc in *. apply Qle_antisym; assumption.
  - apply sort_desc_sorted.
  - apply sort_desc_sorted.
  - rewrite !sort_desc_perm. exact Hperm.
Qed.
End SortFacts.

Lemma elem_of_find_anomalies stats threshold item :
  item ∈ find_anomalies stats threshold
  <-> item ∈ stats /\ is_anomaly threshold (snd item) = true.
Proof.
  unfold find_anomalies. rewrite sort_desc_perm.
  rewrite !list_elem_of_In, List.filter_In. reflexivity.
Qed.

(** C3.  An instrument of the statistics is among the anomalies exactly when
    its z-score is above the sigma threshold, its deviation is above the
    minimum deviation percent (300) and its mean is at least the minimum
    average value (10,000,000); failing any one of the three tests keeps it
    out, whatever the other two say. *)
Theorem find_anomalies_inclusion (stats : dict StatInfo) (threshold : Q)
    (ticker : string) (info : StatInfo) :
  MIN_DEVIATION_PERCENT = 300 /\ MIN_AVG_VALUE = 10000000
  /\ ((ticker, info) ∈ find_anomalies stats threshold
      <-> (ticker, info) ∈ stats
          /\ threshold < z_score info
          /\ MIN_DEVIATION_PERCENT < deviation_pct info
          /\ MIN_AVG_VALUE <= mean_value info)
  /\ (~ threshold < z_score info
      \/ ~ MIN_DEVIATION_PERCENT < deviation_pct info
      \/ ~ MIN_AVG_VALUE <= mean_value info ->
      (ticker, info) ∉ find_anomalies stats threshold).
Proof.
  split; [reflexivity|]. split; [reflexivity|].
  assert (Hiff : (ticker, info) ∈ find_anomalies stats threshold
                 <-> (ticker, info) ∈ stats
                     /\ threshold < z_score info
                     /\ MIN_DEVIATION_PERCENT < deviation_pct info
                     /\ MIN_AVG_VALUE <= mean_value info).
  { rewrite elem_of_find_anomalies, is_anomaly_iff. reflexivity. }
  split; [exact Hiff|].
  intros Hfail Hin. apply Hiff in Hin. tauto.
Qed.

Lemma find_anomalies_inclusion_witness :
  (("BBBB"%string, sample_stat "Beta" 80) ∈ ranked_stats
   /\ 3 < z_score (sample_stat "Beta" 80)
   /\ MIN_DEVIATION_PERCENT < deviation_pct (sample_stat "Beta" 80)
   /\ MIN_AVG_VALUE <= mean_value (sample_stat "Beta" 80))
  /\ ("BBBB"%string, sample_stat "Beta" 80) ∈ find_anomalies ranked_stats 3
  /\ ~ 3 < z_score (sample_stat "Gamma" 2)
  /\ ("CCCC"%string, sample_stat "Gamma" 2) ∉ find_anomalies ranked_stats 3.
Proof.
  assert (Hin : ("BBBB"%string, sample_stat "Beta" 80) ∈ ranked_stats
                /\ 3 < z_score (sample_stat "Beta" 80)
                /\ MIN_DEVIATION_PERCENT < deviation_pct (sample_stat "Beta" 80)
                /\ MIN_AVG_VALUE <= mean_value (sample_stat "Beta" 80)).
  { split; [apply list_elem_of_further, list_elem_of_here|].
    split; [reflexivity|]. split; [reflexivity|]. discriminate. }
  assert (Hz : ~ 3 < z_score (sample_stat "Gamma" 2)).
  { intros H. vm_compute in H. discriminate H. }
  split; [exact Hin|]. split.
  - exact (proj2 (proj1 (proj2 (proj2 (find_anomalies_inclusion ranked_stats 3
                                          "BBBB" (sample_stat "Beta" 80))))) Hin).
  - split; [exact Hz|].
    exact (proj2 (proj2 (proj2 (find_anomalies_inclusion ranked_stats 3
                                  "CCCC" (sample_stat "Gamma" 2)))) (or_introl Hz)).
Defined.

(** C5 as stated fails: with two selected instruments of equal z-score the
    output follows the iteration order of the input, so the reversed
    mapping gives another sequence. *)
Lemma find_anomalies_rev_tie_differs :
  NoDup (Dict.keys tie_stats)
  /\ find_anomalies tie_stats 3
     = [("AAAA"%string, sample_stat "Alpha" 80); ("BBBB"%string, sample_stat "Beta" 80)]
  /\ find_anomalies (rev tie_stats) 3
     = [("BBBB"%string, sample_stat "Beta" 80); ("AAAA"%string, sample_stat "Alpha" 80)]
  /\ find_anomalies (rev tie_stats) 3 <> find_anomalies tie_stats 3.
Proof.
  split; [|split; [|split]].
  - apply NoDup_ListNoDup. repeat constructor; simpl; intuition discriminate.
  - reflexivity.
  - reflexivity.
  - intros H. vm_compute in H. discriminate H.
Qed.

(** C5, amended.  The selected entries come out sorted by z-score in
    descending order, and when no two selected entries have equal z-scores
    the output for the reversed mapping is the same sequence. *)
Theorem find_anomalies_sorted_rev (stats : dict StatInfo) (threshold : Q) :
  StronglySorted (desc (fun x => z_score (snd x))) (find_anomalies stats threshold)
  /\ ((forall a b, a ∈ find_anomalies stats threshold ->
                   b ∈ find_anomalies stats threshold ->
                   z_score (snd a) == z_score (snd b) -> a = b) ->
      find_anomalies (rev stats) threshold = find_anomalies stats threshold).
Proof.
  split.
  - apply Sorted_StronglySorted; [apply desc_trans|].
    unfold find_anomalies. apply sort_desc_sorted.
  - intros Hinj. unfold find_anomalies in *. symmetry.
    apply sort_desc_perm_eq.
    + rewrite List.filter_rev. apply Permutation_rev.
    + intros a b Ha Hb. apply Hinj; rewrite sort_desc_perm; assumption.
Qed.

Lemma find_anomalies_sorted_rev_witness :
  (forall a b, a ∈ find_anomalies ranked_stats 3 ->
               b ∈ find_anomalies ranked_stats 3 ->
               z_score (snd a) == z_score (snd b) -> a = b)
  /\ find_anomalies (rev ranked_stats) 3 = find_anomalies ranked_stats 3
  /\ find_anomalies ranked_stats 3
     = [("BBBB"%string, sample_stat "Beta" 80); ("AAAA"%string, sample_stat "Alpha" 7)].
Proof.
  assert (Hinj : forall a b, a ∈ find_anomalies ranked_stats 3 ->
                             b ∈ find_anomalies ranked_stats 3 ->
                             z_score (snd a) == z_score (snd b) -> a = b).
  { intros a b Ha Hb Hz.
    apply list_elem_of_In in Ha, Hb. vm_compute in Ha, Hb.
    destruct Ha as [<-|[<-|[]]]; destruct Hb as [<-|[<-|[]]];
      try reflexivity; vm_compute in Hz; discriminate Hz. }
  split; [exact Hinj|]. split.
  - exact (proj2 (find_anomalies_sorted_rev ranked_stats 3) Hinj).
  - reflexivity.
Defined.

(** ** Statistics engine *)

Lemma truediv_pos (a b : Q) : 0 < b -> truediv a b = Ok (a / b).
Proof.
  intros Hb. unfold truediv.
  destruct (Qeq_bool b 0) eqn:Heq; [|reflexivity].
  apply Qeq_bool_iff in Heq. rewrite Heq in Hb.
  exfalso. exact (Qlt_irrefl 0 Hb).
Qed.

Lemma foldM_app {A B : Type} (f : A -> B -> result A) (l1 l2 : list B) (a : A) :
  foldM f (l1 ++ l2) a = let* a' := foldM f l1 a in foldM f l2 a'.
Proof.
  revert a. induction l1 as [|x l1 IH]; intros a; simpl; [reflexivity|].
  destruct (f a x); simpl; [apply IH | reflexivity].
Qed.

Section StatisticsFacts.
Variable sqrt : Q -> Q.
Variable upper : string -> string.
Variable base_data : list (dict TickerInfo).

#[local] Abbreviation body := (calculate_statistics_body sqrt upper base_data).

(** One iteration never raises; it touches no record but the one of its
    own ticker, keeps the keys distinct and only appends to the warnings. *)
Lemma body_frame stats warnings ticker target_info :
  exists stats' extra,
    body (stats, warnings) (ticker, target_info) = Ok (stats', warnings ++ extra)
    /\ (forall k, k <> ticker -> Dict.get k stats' = Dict.get k stats)
    /\ (NoDup (Dict.keys stats) -> NoDup (Dict.keys stats')).
Proof.
  unfold calculate_statistics_body.
  destruct (startswith ticker EXCLUDED_TICKER_PREFIXES).
  { exists stats, []. rewrite app_nil_r. auto. }
  destruct (name_excluded upper (shortname target_info)).
  { exists stats, []. rewrite app_nil_r. auto. }
  destruct (baseline_values base_data ticker) as [|v vs] eqn:Hvals.
  { exists stats, []. rewrite app_nil_r. auto. }
  set (values := v :: vs).
  assert (Hmean : mean values = Ok (Qsum values / Qlen values)) by reflexivity.
  rewrite Hmean. cbn [rbind].
  set (m := Qsum values / Qlen values).
  assert (Hz : forall current std,
             exists z, (if Qltb 0 std then truediv (current - m) std else Ok 0) = Ok z).
  { intros current std. destruct (Qltb 0 std) eqn:Hstd; [|eauto].
    apply Qltb_lt in Hstd. rewrite truediv_pos by assumption. eauto. }
  assert (Hd : forall current,
             exists d, (if Qltb 0 m
                        then let* q := truediv (current - m) m in Ok (q * 100)
                        else Ok 0) = Ok d).
  { intros current. destruct (Qltb 0 m) eqn:Hm; [|eauto].
    apply Qltb_lt in Hm. rewrite truediv_pos by assumption. simpl. eauto. }
  assert (Hset : forall st,
             (forall k, k <> ticker ->
                        Dict.get k (Dict.set ticker st stats) = Dict.get k stats)
             /\ (NoDup (Dict.keys stats) ->
                 NoDup (Dict.keys (Dict.set ticker st stats)))).
  { intros st. split.
    - intros k Hk. rewrite DictFacts.get_set.
      destruct (String.eqb_spec k ticker); congruence.
    - apply DictFacts.NoDup_keys_set. }
  destruct (2 <=? length values)%nat eqn:Hlen.
  - unfold stdev, variance.
    assert (Hlt : (length values <? 2)%nat = false).
    { apply Nat.ltb_ge. apply Nat.leb_le in Hlen. exact Hlen. }
    rewrite Hlt, Hmean. cbn [rbind].
    match goal with
    | |- context [Qltb 0 (sqrt ?x)] => set (std := sqrt x)
    end.
    destruct (Hz (value target_info) std) as [z ->].
    destruct (Hd (value target_info)) as [d ->]. cbn [rbind].
    eexists _, []. rewrite app_nil_r. split; [reflexivity|]. apply Hset.
  - cbn [rbind].
    match goal with
    | |- context [Qltb 0 (if ?c then ?a else ?b)] => set (std := if c then a else b)
    end.
    destruct (Hz (value target_info) std) as [z ->].
    destruct (Hd (value target_info)) as [d ->]. cbn [rbind].
    eexists _, _. split; [reflexivity|]. apply Hset.
Qed.

(** Iterating over items none of which is [ticker] leaves its record and
    the warnings collected so far in place. *)
Lemma foldM_body_frame (items : dict TickerInfo) stats warnings ticker :
  ticker ∉ Dict.keys items ->
  exists stats' extra,
    foldM body items (stats, warnings) = Ok (stats', warnings ++ extra)
    /\ Dict.get ticker stats' = Dict.get ticker stats.
Proof.
  revert stats warnings.
  induction items as [|[k info] items IH]; intros stats warnings Hnotin;
    cbn [foldM].
  - exists stats, []. rewrite app_nil_r. auto.
  - simpl in Hnotin. apply not_elem_of_cons in Hnotin as [Hne Hnotin].
    destruct (body_frame stats warnings k info) as (stats1 & extra1 & -> & Hget1 & _).
    cbn [rbind].
    destruct (IH stats1 (warnings ++ extra1) Hnotin) as (stats2 & extra2 & -> & Hget2).
    exists stats2, (extra1 ++ extra2). rewrite app_assoc. split; [reflexivity|].
    rewrite Hget2. apply Hget1, Hne.
Qed.

(** The whole loop never raises and keeps the keys distinct. *)
Lemma foldM_body_total (items : dict TickerInfo) stats warnings :
  exists stats' warnings',
    foldM body items (stats, warnings) = Ok (stats', warnings')
    /\ (NoDup (Dict.keys stats) -> NoDup (Dict.keys stats')).
Proof.
  revert stats warnings.
  induction items as [|[k info] items IH]; intros stats warnings; cbn [foldM];
    [eauto|].
  destruct (body_frame stats warnings k info) as (stats1 & extra1 & -> & _ & Hnd1).
  cbn [rbind].
  destruct (IH stats1 (warnings ++ extra1)) as (stats2 & warnings2 & -> & Hnd2).
  exists stats2, warnings2. split; [reflexivity|]. auto.
Qed.

Lemma calculate_statistics_total (target_data : dict TickerInfo) :
  exists stats warnings,
    calculate_statistics sqrt upper base_data target_data = Ok (stats, warnings)
    /\ NoDup (Dict.keys stats).
Proof.
  unfold calculate_statistics.
  destruct (foldM_body_total target_data [] []) as (stats & warnings & -> & Hnd).
  exists stats, warnings. split; [reflexivity|]. apply Hnd, NoDup_nil_2.
Qed.

(** If the iteration for an item of the target snapshot stores [st] and
    appends [extra], the final statistics hold [st] for its ticker and the
    final warnings contain [extra]. *)
Lemma calculate_statistics_entry (target_data : dict TickerInfo)
    ticker target_info st extra :
  NoDup (Dict.keys target_data) ->
  (ticker, target_info) ∈ target_data ->
  (forall stats warnings,
      body (stats, warnings) (ticker, target_info)
      = Ok (Dict.set ticker st stats, warnings ++ extra)) ->
  exists stats warnings,
    calculate_statistics sqrt upper base_data target_data = Ok (stats, warnings)
    /\ NoDup (Dict.keys stats)
    /\ Dict.get ticker stats = Some st
    /\ forall w, w ∈ extra -> w ∈ warnings.
Proof.
  intros Hnd Hin Hbody.
  destruct (calculate_statistics_total target_data) as (stats0 & warnings0 & Htot & Hnd0).
  revert Htot.
  apply list_elem_of_split in Hin as (l1 & l2 & ->).
  unfold Dict.keys in Hnd. rewrite map_app in Hnd. simpl in Hnd.
  apply NoDup_app in Hnd as (_ & _ & Hnd). apply NoDup_cons in Hnd as [Hnotin _].
  unfold calculate_statistics. rewrite foldM_app.
  destruct (foldM_body_total l1 [] []) as (stats1 & warnings1 & -> & _).
  cbn [rbind foldM]. rewrite Hbody. cbn [rbind].
  destruct (foldM_body_frame l2 (Dict.set ticker st stats1) (warnings1 ++ extra)
              ticker Hnotin) as (stats2 & extra2 & -> & Hget).
  intros Htot. injection Htot as <- <-.
  exists stats2, ((warnings1 ++ extra) ++ extra2).
  split; [reflexivity|]. split; [exact Hnd0|]. split.
  - rewrite Hget, DictFacts.get_set, String.eqb_refl. reflexivity.
  - intros w Hw. rewrite !elem_of_app. auto.
Qed.

(** The iteration for a surviving ticker with a single baseline value. *)
Lemma body_single_value stats warnings ticker target_info v :
  startswith ticker EXCLUDED_TICKER_PREFIXES = false ->
  name_excluded upper (shortname target_info) = false ->
  baseline_values base_data ticker = [v] ->
  let m := Qsum [v] / Qlen [v] in
  let std := if Qltb 0 m then m * (1 # 100) else 1 in
  body (stats, warnings) (ticker, target_info)
  = Ok (Dict.set ticker
          {| st_shortname := shortname target_info;
             current_value := value target_info;
             mean_value := m;
             std_value := std;
             z_score := (value target_info - m) / std;
             deviation_pct := if Qltb 0 m
                              then (value target_info - m) / m * 100 else 0;
             base_days_count := 1 |} stats,
        warnings ++ [short_history_warning ticker 1]).
Proof.
  intros Hprefix Hname Hvals m std.
  unfold calculate_statistics_body.
  rewrite Hprefix, Hname, Hvals.
  change (mean [v]) with (Ok m). cbn [rbind length Nat.leb].
  fold std.
  assert (Hstd : 0 < std).
  { subst std. destruct (Qltb 0 m) eqn:Hm; [|reflexivity].
    apply Qltb_lt in Hm.
    apply Qmult_lt_0_compat; [exact Hm | reflexivity]. }
  assert (Hstdb : Qltb 0 std = true) by (apply Qltb_lt, Hstd).
  rewrite Hstdb, truediv_pos by exact Hstd. cbn [rbind].
  destruct (Qltb 0 m) eqn:Hm.
  - apply Qltb_lt in Hm. rewrite truediv_pos by exact Hm. reflexivity.
  - reflexivity.
Qed.

(** The iteration for a surviving ticker with two or more baseline
    values: the sample standard deviation, and the guarded z-score. *)
Lemma body_many_values stats warnings ticker target_info values :
  startswith ticker EXCLUDED_TICKER_PREFIXES = false ->
  name_excluded upper (shortname target_info) = false ->
  baseline_values base_data ticker = values ->
  (2 <= length values)%nat ->
  let m := Qsum values / Qlen values in
  let std := sqrt (Qsum (map (fun x => (x - m) * (x - m)) values)
                   / (Qlen values - 1)) in
  body (stats, warnings) (ticker, target_info)
  = Ok (Dict.set ticker
          {| st_shortname := shortname target_info;
             current_value := value target_info;
             mean_value := m;
             std_value := std;
             z_score := if Qltb 0 std then (value target_info - m) / std else 0;
             deviation_pct := if Qltb 0 m
                              then (value target_info - m) / m * 100 else 0;
             base_days_count := length values |} stats,
        warnings ++ []).
Proof.
  intros Hprefix Hname Hvals Hlen. subst values.
  unfold calculate_statistics_body.
  rewrite Hprefix, Hname.
  destruct (baseline_values base_data ticker) as [|v vs]; [simpl in Hlen; lia|].
  set (values := v :: vs) in *.
  set (m := Qsum values / Qlen values).
  set (std := sqrt _).
  assert (Hmean : mean values = Ok m) by reflexivity.
  rewrite Hmean. cbn [rbind].
  assert (Hge : (2 <=? length values)%nat = true) by (apply Nat.leb_le, Hlen).
  assert (Hlt : (length values <? 2)%nat = false) by (apply Nat.ltb_ge, Hlen).
  unfold stdev, variance. rewrite Hge, Hlt, Hmean. cbn [rbind]. fold m std.
  rewrite app_nil_r.
  destruct (Qltb 0 std) eqn:Hstd.
  - apply Qltb_lt in Hstd. rewrite truediv_pos by exact Hstd. cbn [rbind].
    destruct (Qltb 0 m) eqn:Hm; [|reflexivity].
    apply Qltb_lt in Hm. rewrite truediv_pos by exact Hm. reflexivity.
  - cbn [rbind].
    destruct (Qltb 0 m) eqn:Hm; [|reflexivity].
    apply Qltb_lt in Hm. rewrite truediv_pos by exact Hm. reflexivity.
Qed.
End StatisticsFacts.

Lemma mean_single (v : Q) : Qsum [v] / Qlen [v] == v.
Proof. unfold Qsum, Qlen. simpl. field. Qed.

(** C1.  An identifier of the target snapshot that survives both exclusions
    and has exactly one baseline value [v] gets mean [v], a standard
    deviation of 1% of the mean when the mean is positive and of 1 when it
    is zero, a z-score of (current value - mean) over that synthetic
    deviation, which is positive, and a warning naming it. *)
Theorem calculate_statistics_single_value
    (sqrt : Q -> Q) (upper : string -> string)
    (base_data : list (dict TickerInfo)) (target_data : dict TickerInfo)
    (ticker : string) (target_info : TickerInfo) (v : Q) :
  NoDup (Dict.keys target_data) ->
  (ticker, target_info) ∈ target_data ->
  startswith ticker EXCLUDED_TICKER_PREFIXES = false ->
  name_excluded upper (shortname target_info) = false ->
  baseline_values base_data ticker = [v] ->
  exists stats warnings info,
    calculate_statistics sqrt upper base_data target_data = Ok (stats, warnings)
    /\ Dict.get ticker stats = Some info
    /\ current_value info = value target_info
    /\ mean_value info == v
    /\ (0 < v -> std_value info == v * (1 # 100))
    /\ (v == 0 -> std_value info == 1)
    /\ 0 < std_value info
    /\ z_score info == (current_value info - v) / std_value info
    /\ base_days_count info = 1%nat
    /\ short_history_warning ticker 1 ∈ warnings.
Proof.
  intros Hnd Hin Hprefix Hname Hvals.
  pose proof (mean_single v) as Hm.
  set (m := Qsum [v] / Qlen [v]) in *.
  destruct (calculate_statistics_entry sqrt upper base_data target_data
              ticker target_info _ _ Hnd Hin
              (fun stats warnings =>
                 body_single_value sqrt upper base_data stats warnings
                   ticker target_info v Hprefix Hname Hvals))
    as (stats & warnings & Hcalc & _ & Hget & Hwarn).
  eexists stats, warnings, _. split; [exact Hcalc|]. split; [exact Hget|].
  cbn [current_value mean_value std_value z_score base_days_count]. fold m.
  assert (Hpos : 0 < v -> Qltb 0 m = true).
  { intros Hv. apply Qltb_lt. rewrite Hm. exact Hv. }
  assert (Hzero : v == 0 -> Qltb 0 m = false).
  { intros Hv. apply Qltb_ge. rewrite Hm, Hv. apply Qle_refl. }
  split; [reflexivity|]. split; [exact Hm|]. split; [|split; [|split; [|split; [|split]]]].
  - intros Hv. rewrite (Hpos Hv), Hm. reflexivity.
  - intros Hv. rewrite (Hzero Hv). reflexivity.
  - destruct (Qltb 0 m) eqn:Hlt; [|reflexivity].
    apply Qltb_lt in Hlt. apply Qmult_lt_0_compat; [exact Hlt | reflexivity].
  - apply Qdiv_comp; [|reflexivity].
    apply Qplus_comp; [reflexivity|]. apply Qopp_comp, Hm.
  - reflexivity.
  - apply Hwarn, list_elem_of_here.
Qed.

Lemma calculate_statistics_single_value_witness :
  NoDup (Dict.keys sber_target)
  /\ ("SBER"%string, day_record "Sberbank" 500) ∈ sber_target
  /\ startswith "SBER" EXCLUDED_TICKER_PREFIXES = false
  /\ name_excluded upper_ascii "Sberbank" = false
  /\ baseline_values one_day_base "SBER" = [100]
  /\ exists stats warnings info,
       calculate_statistics sqrt_approx upper_ascii one_day_base sber_target
       = Ok (stats, warnings)
       /\ Dict.get "SBER" stats = Some info
       /\ current_value info = 500
       /\ mean_value info == 100
       /\ (0 < 100 -> std_value info == 100 * (1 # 100))
       /\ (100 == 0 -> std_value info == 1)
       /\ 0 < std_value info
       /\ z_score info == (current_value info - 100) / std_value info
       /\ base_days_count info = 1%nat
       /\ short_history_warning "SBER" 1 ∈ warnings.
Proof.
  assert (Hnd : NoDup (Dict.keys sber_target)).
  { apply NoDup_ListNoDup. repeat constructor. simpl. tauto. }
  assert (Hin : ("SBER"%string, day_record "Sberbank" 500) ∈ sber_target).
  { apply list_elem_of_here. }
  repeat (split; [first [exact Hnd | exact Hin | reflexivity]|]).
  exact (calculate_statistics_single_value sqrt_approx upper_ascii one_day_base
           sber_target "SBER" (day_record "Sberbank" 500) 100
           Hnd Hin eq_refl eq_refl eq_refl).
Defined.

(** C10 as stated fails: with a baseline window of one snapshot the warning
    still reads "instead of 5", and the message with the actual window
    length is not emitted. *)
Lemma short_history_warning_ignores_window :
  length one_day_base = 1%nat
  /\ baseline_values one_day_base "SBER" = [100]
  /\ (exists stats,
        calculate_statistics sqrt_approx upper_ascii one_day_base sber_target
        = Ok (stats, ["Тикер SBER: только 1 день(ей) данных вместо 5"%string]))
  /\ spec_short_history_warning "SBER" 1 (length one_day_base)
     = "Тикер SBER: только 1 день(ей) данных вместо 1"%string
  /\ spec_short_history_warning "SBER" 1 (length one_day_base)
     ∉ ["Тикер SBER: только 1 день(ей) данных вместо 5"%string].
Proof.
  split; [reflexivity|]. split; [reflexivity|]. split; [|split].
  - eexists. vm_compute. reflexivity.
  - reflexivity.
  - intros Hin. apply list_elem_of_singleton in Hin. vm_compute in Hin.
    discriminate Hin.
Qed.

(** C10, amended.  Whatever the number of baseline snapshots passed in, the
    warning for an identifier with exactly one available baseline value
    states the number of available values, 1, and the literal 5 as the
    window length. *)
Theorem short_history_warning_text
    (sqrt : Q -> Q) (upper : string -> string)
    (base_data : list (dict TickerInfo)) (target_data : dict TickerInfo)
    (ticker : string) (target_info : TickerInfo) (v : Q) :
  NoDup (Dict.keys target_data) ->
  (ticker, target_info) ∈ target_data ->
  startswith ticker EXCLUDED_TICKER_PREFIXES = false ->
  name_excluded upper (shortname target_info) = false ->
  baseline_values base_data ticker = [v] ->
  exists stats warnings,
    calculate_statistics sqrt upper base_data target_data = Ok (stats, warnings)
    /\ ("Тикер " +:+ ticker +:+ ": только "
          +:+ str_nat (length (baseline_values base_data ticker))
          +:+ " день(ей) данных вместо 5") ∈ warnings
    /\ str_nat (length (baseline_values base_data ticker)) = "1"%string.
Proof.
  intros Hnd Hin Hprefix Hname Hvals.
  destruct (calculate_statistics_entry sqrt upper base_data target_data
              ticker target_info _ _ Hnd Hin
              (fun stats warnings =>
                 body_single_value sqrt upper base_data stats warnings
                   ticker target_info v Hprefix Hname Hvals))
    as (stats & warnings & Hcalc & _ & _ & Hwarn).
  exists stats, warnings. split; [exact Hcalc|]. rewrite Hvals. split.
  - apply Hwarn, list_elem_of_here.
  - reflexivity.
Qed.

Lemma short_history_warning_text_witness :
  NoDup (Dict.keys sber_target)
  /\ ("SBER"%string, day_record "Sberbank" 500) ∈ sber_target
  /\ startswith "SBER" EXCLUDED_TICKER_PREFIXES = false
  /\ name_excluded upper_ascii "Sberbank" = false
  /\ baseline_values (one_day_base ++ [[]; []]) "SBER" = [100]
  /\ exists stats warnings,
       calculate_statistics sqrt_approx upper_ascii (one_day_base ++ [[]; []])
         sber_target = Ok (stats, warnings)
       /\ ("Тикер " +:+ "SBER" +:+ ": только "
             +:+ str_nat (length (baseline_values (one_day_base ++ [[]; []]) "SBER"))
             +:+ " день(ей) данных вместо 5") ∈ warnings
       /\ str_nat (length (baseline_values (one_day_base ++ [[]; []]) "SBER"))
          = "1"%string.
Proof.
  assert (Hnd : NoDup (Dict.keys sber_target)).
  { apply NoDup_ListNoDup. repeat constructor. simpl. tauto. }
  assert (Hin : ("SBER"%string, day_record "Sberbank" 500) ∈ sber_target).
  { apply list_elem_of_here. }
  repeat (split; [first [exact Hnd | exact Hin | reflexivity]|]).
  exact (short_history_warning_text sqrt_approx upper_ascii
           (one_day_base ++ [[]; []]) sber_target "SBER"
           (day_record "Sberbank" 500) 100 Hnd Hin eq_refl eq_refl eq_refl).
Defined.

Lemma sqrt_approx_zero (q : Q) : q == 0 -> sqrt_approx q == 0.
Proof.
  intros Hq. unfold Qeq in Hq. simpl in Hq.
  unfold sqrt_approx. replace (Qnum q) with 0%Z by lia. reflexivity.
Qed.

(** C4.  With baseline values [100, 100, 100, 100, 100] and target value
    500 the statistics are mean 100, standard deviation 0, z-score 0 and
    deviation +400%, which is above 300%; at threshold 3 the instrument is
    not among the anomalies.  The square root is any function that maps
    zero to zero. *)
Theorem constant_baseline_not_selected
    (sqrt : Q -> Q) (upper : string -> string)
    (base_data : list (dict TickerInfo)) (target_data : dict TickerInfo)
    (ticker : string) (target_info : TickerInfo) :
  (forall q, q == 0 -> sqrt q == 0) ->
  NoDup (Dict.keys target_data) ->
  (ticker, target_info) ∈ target_data ->
  startswith ticker EXCLUDED_TICKER_PREFIXES = false ->
  name_excluded upper (shortname target_info) = false ->
  baseline_values base_data ticker = [100; 100; 100; 100; 100] ->
  value target_info == 500 ->
  exists stats warnings info,
    calculate_statistics sqrt upper base_data target_data = Ok (stats, warnings)
    /\ Dict.get ticker stats = Some info
    /\ mean_value info == 100
    /\ std_value info == 0
    /\ z_score info = 0
    /\ deviation_pct info == 400
    /\ MIN_DEVIATION_PERCENT < deviation_pct info
    /\ ticker ∉ Dict.keys (find_anomalies stats 3).
Proof.
  intros Hsqrt Hnd Hin Hprefix Hname Hvals Hcur.
  assert (Hlen : (2 <= length [100; 100; 100; 100; 100])%nat) by (simpl; lia).
  pose proof (fun stats warnings =>
                body_many_values sqrt upper base_data stats warnings ticker
                  target_info _ Hprefix Hname Hvals Hlen) as Hbody.
  cbv zeta in Hbody.
  set (values := [100; 100; 100; 100; 100]) in Hbody.
  set (m := Qsum values / Qlen values) in Hbody.
  set (var := Qsum (map (fun x => (x - m) * (x - m)) values) / (Qlen values - 1))
    in Hbody.
  assert (Hm : m == 100) by reflexivity.
  assert (Hvar : var == 0) by reflexivity.
  assert (Hstd : sqrt var == 0) by (apply Hsqrt, Hvar).
  assert (Hstdb : Qltb 0 (sqrt var) = false).
  { apply Qltb_ge. rewrite Hstd. apply Qle_refl. }
  assert (Hmb : Qltb 0 m = true).
  { apply Qltb_lt. rewrite Hm. reflexivity. }
  rewrite Hstdb, Hmb in Hbody.
  destruct (calculate_statistics_entry sqrt upper base_data target_data
              ticker target_info _ _ Hnd Hin Hbody)
    as (stats & warnings & Hcalc & Hnds & Hget & _).
  eexists stats, warnings, _. split; [exact Hcalc|]. split; [exact Hget|].
  cbn [mean_value std_value z_score deviation_pct].
  assert (Hdev : (value target_info - m) / m * 100 == 400).
  { rewrite Hcur, Hm. reflexivity. }
  split; [exact Hm|]. split; [exact Hstd|]. split; [reflexivity|].
  split; [exact Hdev|]. split; [rewrite Hdev; reflexivity|].
  intros Hkey. unfold Dict.keys in Hkey.
  apply list_elem_of_fmap in Hkey as ([k x] & Hk & Hx). simpl in Hk. subst k.
  apply elem_of_find_anomalies in Hx as [Hx Han].
  apply DictFacts.elem_of_get in Hx; [|exact Hnds].
  rewrite Hget in Hx. injection Hx as <-.
  apply is_anomaly_iff in Han as [Hz _]. simpl in Hz.
  vm_compute in Hz. discriminate Hz.
Qed.

Lemma constant_baseline_not_selected_witness :
  (forall q, q == 0 -> sqrt_approx q == 0)
  /\ NoDup (Dict.keys sber_target)
  /\ ("SBER"%string, day_record "Sberbank" 500) ∈ sber_target
  /\ startswith "SBER" EXCLUDED_TICKER_PREFIXES = false
  /\ name_excluded upper_ascii "Sberbank" = false
  /\ baseline_values five_day_base "SBER" = [100; 100; 100; 100; 100]
  /\ value (day_record "Sberbank" 500) == 500
  /\ exists stats warnings info,
       calculate_statistics sqrt_approx upper_ascii five_day_base sber_target
       = Ok (stats, warnings)
       /\ Dict.get "SBER" stats = Some info
       /\ mean_value info == 100
       /\ std_value info == 0
       /\ z_score info = 0
       /\ deviation_pct info == 400
       /\ MIN_DEVIATION_PERCENT < deviation_pct info
       /\ "SBER"%string ∉ Dict.keys (find_anomalies stats 3).
Proof.
  assert (Hnd : NoDup (Dict.keys sber_target)).
  { apply NoDup_ListNoDup. repeat constructor. simpl. tauto. }
  assert (Hin : ("SBER"%string, day_record "Sberbank" 500) ∈ sber_target).
  { apply list_elem_of_here. }
  split; [exact sqrt_approx_zero|].
  repeat (split; [first [exact Hnd | exact Hin | reflexivity]|]).
  exact (constant_baseline_not_selected sqrt_approx upper_ascii five_day_base
           sber_target "SBER" (day_record "Sberbank" 500)
           sqrt_approx_zero Hnd Hin eq_refl eq_refl eq_refl (Qeq_refl _)).
Defined.

(** ** Upstream fetcher *)

Section FetcherFacts.
Variable date : string.

Lemma cache_writes_in_app t1 t2 :
  cache_writes_in (t1 ++ t2) = cache_writes_in t1 ++ cache_writes_in t2.
Proof. apply List.filter_app. Qed.

Lemma requests_in_app t1 t2 :
  requests_in (t1 ++ t2) = requests_in t1 ++ requests_in t2.
Proof. apply List.filter_app. Qed.

(** Pages that come back with rows are appended and followed by the next
    request, 100 further; the first page without rows ends the attempt
    and nothing after it is requested. *)
Lemma fetch_pages_until_empty_from (pages : list (list Row)) rest k all_data trace :
  Forall (fun rows => rows <> []) pages ->
  fetch_pages date (map Page pages ++ Page [] :: rest) (100 * k) all_data trace
  = (Some (all_data ++ concat pages), rest,
     trace ++ flat_map (page_events date) (combine (seq k (length pages)) pages)
           ++ [EvRequest date (100 * (k + length pages))]).
Proof.
  intros Hne. revert k all_data trace.
  induction Hne as [|rows pages Hrows _ IH]; intros k all_data trace.
  - cbn [map app fetch_pages length seq combine flat_map concat].
    rewrite app_nil_r, Nat.add_0_r. reflexivity.
  - cbn [map app fetch_pages].
    destruct rows as [|r rows]; [congruence|].
    set (page := r :: rows) in *.
    replace (100 * k + 100)%nat with (100 * S k)%nat by lia.
    rewrite IH. cbn [length seq combine flat_map page_events concat].
    replace (S k + length pages)%nat with (k + S (length pages))%nat by lia.
    f_equal; [f_equal; rewrite app_assoc; reflexivity|].
    destruct (length page =? 100)%nat; cbn [app]; rewrite <- !app_assoc;
      reflexivity.
Qed.

(** An attempt whose answers are some pages with rows and then an error
    fails, having consumed exactly those answers. *)
Lemma fetch_pages_failing (pages : list (list Row)) rest start all_data trace :
  Forall (fun rows => rows <> []) pages ->
  exists trace',
    fetch_pages date (failing_attempt pages ++ rest) start all_data trace
    = (None, rest, trace')
    /\ cache_writes_in trace' = cache_writes_in trace.
Proof.
  intros Hne. revert start all_data trace. unfold failing_attempt.
  induction Hne as [|rows pages Hrows _ IH]; intros start all_data trace.
  - simpl. eexists. split; [reflexivity|].
    rewrite cache_writes_in_app. simpl. apply app_nil_r.
  - cbn [map app fetch_pages].
    destruct rows as [|r rows]; [congruence|].
    edestruct IH as (trace' & -> & Hw). eexists. split; [reflexivity|].
    rewrite Hw. destruct (length (r :: rows) =? 100)%nat;
      rewrite !cache_writes_in_app; simpl; rewrite ?app_nil_r; reflexivity.
Qed.

(** No attempt writes to the cache. *)
Lemma fetch_pages_no_write upstream start all_data trace r upstream' trace' :
  fetch_pages date upstream start all_data trace = (r, upstream', trace') ->
  cache_writes_in trace' = cache_writes_in trace.
Proof.
  revert start all_data trace.
  induction upstream as [|resp upstream IH]; intros start all_data trace; simpl.
  - intros [= <- <- <-]. rewrite cache_writes_in_app. simpl. apply app_nil_r.
  - destruct resp as [|rows].
    + intros [= <- <- <-]. rewrite cache_writes_in_app. simpl. apply app_nil_r.
    + destruct rows as [|row rows].
      * intros [= <- <- <-]. rewrite cache_writes_in_app. simpl. apply app_nil_r.
      * intros H. apply IH in H. rewrite H.
        destruct (length (row :: rows) =? 100)%nat;
          rewrite !cache_writes_in_app; simpl; rewrite ?app_nil_r; reflexivity.
Qed.

Lemma fetch_attempts_no_write remaining attempt upstream trace r upstream' trace' :
  fetch_attempts date remaining attempt upstream trace = (r, upstream', trace') ->
  cache_writes_in trace' = cache_writes_in trace.
Proof.
  revert attempt upstream trace.
  induction remaining as [|remaining IH]; intros attempt upstream trace; simpl.
  - intros [= <- <- <-]. reflexivity.
  - destruct (fetch_pages date upstream 0 [] trace) as [[res up1] tr1] eqn:Hpages.
    apply fetch_pages_no_write in Hpages.
    destruct res as [all_data|].
    + intros [= <- <- <-]. exact Hpages.
    + destruct (attempt <? MAX_RETRIES)%nat.
      * intros H. apply IH in H. rewrite H, cache_writes_in_app. simpl.
        rewrite app_nil_r. exact Hpages.
      * intros [= <- <- <-]. exact Hpages.
Qed.

(** The retry loop always leaves through [return] or [raise]. *)
Lemma fetch_attempts_outcome remaining attempt upstream trace :
  (remaining + attempt = S MAX_RETRIES)%nat -> (0 < remaining)%nat ->
  (exists data, fst (fst (fetch_attempts date remaining attempt upstream trace)) = Ok data)
  \/ fst (fst (fetch_attempts date remaining attempt upstream trace))
     = Raise (FetchFailed date).
Proof.
  revert attempt upstream trace.
  induction remaining as [|remaining IH]; intros attempt upstream trace Hsum Hpos;
    [lia|].
  cbn [fetch_attempts].
  destruct (fetch_pages date upstream 0 [] trace) as [[res up1] tr1].
  destruct res as [all_data|]; [left; eauto|].
  destruct (attempt <? MAX_RETRIES)%nat eqn:Hlt; [|right; reflexivity].
  apply Nat.ltb_lt in Hlt. apply IH; lia.
Qed.

(** When each of the attempts that are left fails, the fetch fails for
    good, after the answers of those attempts and no others. *)
Lemma fetch_attempts_exhausted (attempts : list (list (list Row))) rest attempt trace :
  (length attempts + attempt = S MAX_RETRIES)%nat -> (0 < length attempts)%nat ->
  Forall (Forall (fun rows => rows <> [])) attempts ->
  exists trace',
    fetch_attempts date (length attempts) attempt
      (flat_map failing_attempt attempts ++ rest) trace
    = (Raise (FetchFailed date), rest, trace')
    /\ cache_writes_in trace' = cache_writes_in trace.
Proof.
  revert attempt trace.
  induction attempts as [|pages attempts IH]; intros attempt trace Hsum Hpos Hne;
    [simpl in Hpos; lia|].
  apply Forall_cons in Hne as [Hpages Hne].
  cbn [length flat_map fetch_attempts]. rewrite <- app_assoc.
  destruct (fetch_pages_failing pages (flat_map failing_attempt attempts ++ rest)
              0 [] trace Hpages) as (tr1 & -> & Hw1).
  simpl in Hsum.
  destruct (attempt <? MAX_RETRIES)%nat eqn:Hlt.
  - apply Nat.ltb_lt in Hlt.
    destruct (IH (S attempt) (tr1 ++ [EvSleep RETRY_DELAY])) as (tr2 & -> & Hw2);
      [lia | lia | exact Hne |].
    eexists. split; [reflexivity|].
    rewrite Hw2, cache_writes_in_app. simpl. rewrite app_nil_r. exact Hw1.
  - apply Nat.ltb_ge in Hlt.
    destruct attempts as [|a attempts]; [|simpl in Hsum; lia].
    simpl. eexists. split; [reflexivity|]. exact Hw1.
Qed.
End FetcherFacts.

(** C6 as stated fails: after a first page of one row, fewer than the page
    size, the fetcher asks for the page at offset 100 before it stops. *)
Lemma fetch_pages_requests_after_short_page :
  fetch_pages "2026-01-30" short_page_script 0 [] []
  = (Some [sample_row "SBER" 100], [Page [sample_row "GAZP" 7]],
     [EvRequest "2026-01-30" 0; EvRequest "2026-01-30" 100])
  /\ ~ (forall date first_page rest r upstream' trace',
          (length first_page < 100)%nat ->
          fetch_pages date (Page first_page :: rest) 0 [] [] = (r, upstream', trace') ->
          requests_in trace' = [EvRequest date 0]).
Proof.
  split; [reflexivity|].
  intros H.
  specialize (H "2026-01-30"%string [sample_row "SBER" 100]
                [Page []; Page [sample_row "GAZP" 7]] _ _ _
                ltac:(simpl; lia) eq_refl).
  vm_compute in H. discriminate H.
Qed.

(** C6, amended.  An attempt requests pages at offsets 0, 100, 200, ... and
    appends every page that comes back with rows, whether full or not; it
    stops at the first page with zero rows and requests nothing after it.
    The pause is taken exactly after the pages of 100 rows. *)
Theorem fetch_pages_until_empty (date : string) (pages : list (list Row))
    (rest : list Response) :
  Forall (fun rows => rows <> []) pages ->
  fetch_pages date (map Page pages ++ Page [] :: rest) 0 [] []
  = (Some (concat pages), rest,
     flat_map (page_events date) (combine (seq 0 (length pages)) pages)
       ++ [EvRequest date (100 * length pages)]).
Proof.
  intros Hne.
  exact (fetch_pages_until_empty_from date pages rest 0 [] [] Hne).
Qed.

Lemma fetch_pages_until_empty_witness :
  Forall (fun rows => rows <> []) [[sample_row "SBER" 100]]
  /\ fetch_pages "2026-01-30" short_page_script 0 [] []
     = (Some (concat [[sample_row "SBER" 100]]), [Page [sample_row "GAZP" 7]],
        flat_map (page_events "2026-01-30")
          (combine (seq 0 1) [[sample_row "SBER" 100]])
          ++ [EvRequest "2026-01-30" (100 * 1)]).
Proof.
  assert (Hne : Forall (fun rows : list Row => rows <> [])
                  [[sample_row "SBER" 100]]).
  { constructor; [discriminate | constructor]. }
  split; [exact Hne|].
  exact (fetch_pages_until_empty "2026-01-30" [[sample_row "SBER" 100]]
           [Page [sample_row "GAZP" 7]] Hne).
Defined.

(** ** Data provider *)

Lemma fetch_volumes_from_api_cache date w r w' :
  fetch_volumes_from_api date w = (r, w') ->
  cache w' = cache w
  /\ cache_writes_in (trace w') = cache_writes_in (trace w)
  /\ ((exists data, r = Ok data) \/ r = Raise (FetchFailed date)).
Proof.
  unfold fetch_volumes_from_api.
  pose proof (fetch_attempts_outcome date MAX_RETRIES 1 (upstream w) (trace w)
                eq_refl ltac:(unfold MAX_RETRIES; lia)) as Hout.
  destruct (fetch_attempts date MAX_RETRIES 1 (upstream w) (trace w))
    as [[r0 up] tr] eqn:Hfetch.
  apply fetch_attempts_no_write in Hfetch.
  intros [= <- <-]. simpl in *. auto.
Qed.

(** C7.  With a snapshot for the date in the cache, a call with
    [force = false] returns the cached tickers and leaves the world as it
    was: no request, no cache write; so do two calls in a row. *)
Theorem load_or_fetch_data_cache_hit (date : string) (w : World) (cached : Snapshot) :
  cache w !! date = Some cached ->
  load_or_fetch_data date false w = (Ok (snap_tickers cached), w)
  /\ (forall r1 w1 r2 w2,
        load_or_fetch_data date false w = (r1, w1) ->
        load_or_fetch_data date false w1 = (r2, w2) ->
        r1 = Ok (snap_tickers cached) /\ r2 = Ok (snap_tickers cached)
        /\ w2 = w
        /\ requests_in (trace w2) = requests_in (trace w)
        /\ cache_writes_in (trace w2) = cache_writes_in (trace w)).
Proof.
  intros Hhit.
  assert (H1 : load_or_fetch_data date false w = (Ok (snap_tickers cached), w)).
  { unfold load_or_fetch_data. simpl. rewrite Hhit. reflexivity. }
  split; [exact H1|].
  intros r1 w1 r2 w2 Hcall1 Hcall2.
  rewrite H1 in Hcall1. injection Hcall1 as <- <-.
  rewrite H1 in Hcall2. injection Hcall2 as <- <-.
  auto.
Qed.

Lemma load_or_fetch_data_cache_hit_witness :
  cache cached_world !! "2026-01-30"%string
  = Some {| snap_date := "2026-01-30"; snap_tickers := sber_target |}
  /\ load_or_fetch_data "2026-01-30" false cached_world = (Ok sber_target, cached_world).
Proof.
  assert (Hhit : cache cached_world !! "2026-01-30"%string
                 = Some {| snap_date := "2026-01-30"; snap_tickers := sber_target |}).
  { apply lookup_singleton_eq. }
  split; [exact Hhit|].
  exact (proj1 (load_or_fetch_data_cache_hit "2026-01-30" cached_world _ Hhit)).
Defined.

(** C8.  A call that ends in an exception ends in the permanent failure of
    the fetch, and leaves the cache and the record of cache writes as they
    were, so a later read with [force = false] finds no entry that the
    failed call could have left.  The cache changes only after a fetch that
    returned, and then holds what it returned, an empty mapping included.
    Five failed attempts in a row are such a permanent failure. *)
Theorem load_or_fetch_data_failure_writes_nothing
    (date : string) (force : bool) (w : World) :
  (forall e w',
      load_or_fetch_data date force w = (Raise e, w') ->
      e = FetchFailed date
      /\ fetch_volumes_from_api date w = (Raise e, w')
      /\ cache w' = cache w
      /\ cache_writes_in (trace w') = cache_writes_in (trace w))
  /\ (forall r w',
        load_or_fetch_data date force w = (r, w') ->
        cache w' <> cache w
        \/ cache_writes_in (trace w') <> cache_writes_in (trace w) ->
        exists data w1,
          r = Ok data
          /\ fetch_volumes_from_api date w = (Ok data, w1)
          /\ cache w' = <[date := {| snap_date := date; snap_tickers := data |}]> (cache w))
  /\ (forall attempts rest,
        force = true \/ cache w !! date = None ->
        length attempts = MAX_RETRIES ->
        Forall (Forall (fun rows => rows <> [])) attempts ->
        upstream w = flat_map failing_attempt attempts ++ rest ->
        exists w',
          load_or_fetch_data date force w = (Raise (FetchFailed date), w')
          /\ cache w' = cache w
          /\ upstream w' = rest
          /\ cache_writes_in (trace w') = cache_writes_in (trace w))
  /\ (forall rest,
        force = true \/ cache w !! date = None ->
        upstream w = Page [] :: rest ->
        exists w',
          load_or_fetch_data date force w = (Ok [], w')
          /\ cache w' !! date = Some {| snap_date := date; snap_tickers := [] |}).
Proof.
  assert (Hmiss : force = true \/ cache w !! date = None ->
                  (if negb force then cache w !! date else None) = None).
  { intros [-> | Hnone]; [reflexivity|]. rewrite Hnone. destruct force; reflexivity. }
  split; [|split; [|split]].
  - intros e w'. unfold load_or_fetch_data.
    destruct (if negb force then cache w !! date else None); [discriminate|].
    destruct (fetch_volumes_from_api date w) as [r w1] eqn:Hfetch.
    destruct r as [data|e1]; [discriminate|].
    intros [= <- <-].
    apply fetch_volumes_from_api_cache in Hfetch as H.
    destruct H as (Hc & Hw & [[data Hd] | He]); [discriminate|].
    injection He as ->. auto.
  - intros r w'. unfold load_or_fetch_data.
    destruct (if negb force then cache w !! date else None).
    { intros [= <- <-] [H | H]; congruence. }
    destruct (fetch_volumes_from_api date w) as [r1 w1] eqn:Hfetch.
    apply fetch_volumes_from_api_cache in Hfetch as H.
    destruct H as (Hc & Hw & _).
    destruct r1 as [data|e1].
    + intros [= <- <-] _. exists data, w1. simpl. rewrite Hc. auto.
    + intros [= <- <-] [H | H]; congruence.
  - intros attempts rest Hcond Hlen Hne Hup.
    unfold load_or_fetch_data, fetch_volumes_from_api.
    rewrite (Hmiss Hcond), Hup, <- Hlen.
    destruct (fetch_attempts_exhausted date attempts rest 1 (trace w))
      as (tr & -> & Hw).
    + rewrite Hlen. reflexivity.
    + rewrite Hlen. unfold MAX_RETRIES. lia.
    + exact Hne.
    + eexists. split; [reflexivity|]. simpl. auto.
  - intros rest Hcond Hup.
    unfold load_or_fetch_data, fetch_volumes_from_api.
    rewrite (Hmiss Hcond), Hup. simpl.
    eexists. split; [reflexivity|]. simpl. apply lookup_insert_eq.
Qed.

Lemma load_or_fetch_data_failure_writes_nothing_witness :
  (false = true \/ cache failing_world !! "2026-01-30"%string = None)
  /\ length (repeat ([] : list (list Row)) 5) = MAX_RETRIES
  /\ Forall (Forall (fun rows : list Row => rows <> [])) (repeat [] 5)
  /\ upstream failing_world
     = flat_map failing_attempt (repeat [] 5) ++ short_page_script
  /\ (exists w',
        load_or_fetch_data "2026-01-30" false failing_world
        = (Raise (FetchFailed "2026-01-30"), w')
        /\ cache w' = cache failing_world
        /\ upstream w' = short_page_script
        /\ cache_writes_in (trace w') = cache_writes_in (trace failing_world))
  /\ (false = true \/ cache holiday_world !! "2026-01-30"%string = None)
  /\ upstream holiday_world = Page [] :: []
  /\ (exists w',
        load_or_fetch_data "2026-01-30" false holiday_world = (Ok [], w')
        /\ cache w' !! "2026-01-30"%string
           = Some {| snap_date := "2026-01-30"; snap_tickers := [] |}).
Proof.
  assert (Hmiss1 : false = true \/ cache failing_world !! "2026-01-30"%string = None).
  { right. apply lookup_empty. }
  assert (Hmiss2 : false = true \/ cache holiday_world !! "2026-01-30"%string = None).
  { right. apply lookup_empty. }
  assert (Hne : Forall (Forall (fun rows : list Row => rows <> [])) (repeat [] 5)).
  { repeat constructor. }
  split; [exact Hmiss1|]. split; [reflexivity|]. split; [exact Hne|].
  split; [reflexivity|]. split.
  - exact (proj1 (proj2 (proj2 (load_or_fetch_data_failure_writes_nothing
                                  "2026-01-30" false failing_world)))
             (repeat [] 5) short_page_script Hmiss1 eq_refl Hne eq_refl).
  - split; [exact Hmiss2|]. split; [reflexivity|].
    exact (proj2 (proj2 (proj2 (load_or_fetch_data_failure_writes_nothing
                                  "2026-01-30" false holiday_world)))
             [] Hmiss2 eq_refl).
Defined.

(** ** Report builder *)

Lemma truediv_nonzero (a b : Q) : ~ b == 0 -> truediv a b = Ok (a / b).
Proof.
  intros Hb. unfold truediv.
  destruct (Qeq_bool b 0) eqn:Heq; [|reflexivity].
  apply Qeq_bool_iff in Heq. contradiction.
Qed.

Lemma inject_Z_nonzero (z : Z) : z <> 0%Z -> ~ inject_Z z == 0.
Proof.
  intros Hz Heq. unfold Qeq in Heq. simpl in Heq. lia.
Qed.

Section ReportFacts.
Variable format_float : string -> Q -> string.
Variable round_float : Q -> nat -> Q.

Lemma generate_txt_report_nonzero anoms target_date base_period total warns :
  base_period <> [] -> total <> 0%Z ->
  exists text,
    generate_txt_report format_float anoms target_date base_period total warns
    = Ok text.
Proof.
  intros Hbase Htotal. unfold generate_txt_report.
  destruct base_period as [|d ds]; [congruence|].
  cbn [first_item last_item rbind].
  rewrite truediv_nonzero by (apply inject_Z_nonzero, Htotal).
  cbn [rbind]. eauto.
Qed.

Lemma generate_txt_report_zero anoms target_date base_period warns :
  base_period <> [] ->
  generate_txt_report format_float anoms target_date base_period 0 warns
  = Raise ZeroDivisionError.
Proof.
  intros Hbase. unfold generate_txt_report.
  destruct base_period as [|d ds]; [congruence|]. reflexivity.
Qed.

Lemma generate_json_report_ok anoms target_date base_period total warns :
  base_period <> [] ->
  exists report,
    generate_json_report round_float anoms target_date base_period total warns
    = Ok report
    /\ total_tickers (metadata report) = total
    /\ anomalies_found (metadata report) = length anoms
    /\ length (anomalies report) = length anoms
    /\ warnings report = warns.
Proof.
  intros Hbase. unfold generate_json_report.
  destruct base_period as [|d ds]; [congruence|].
  cbn [first_item last_item rbind]. eexists. split; [reflexivity|].
  cbn [metadata total_tickers anomalies_found anomalies warnings].
  repeat split.
  unfold enumerate1. rewrite length_map, length_combine, length_seq.
  apply Nat.min_id.
Qed.
End ReportFacts.

(** C9 as stated fails: the text rendering divides the number of anomalies
    by the total and raises [ZeroDivisionError] when the total is zero. *)
Lemma generate_txt_report_zero_total_raises :
  generate_txt_report format_plain [] "2026-01-30"
    ["2026-01-23"%string; "2026-01-29"%string] 0 []
  = Raise ZeroDivisionError.
Proof. reflexivity. Qed.

(** C9, amended.  For every anomaly list and warning list and a non-empty
    baseline period, the structured report built with a total of zero
    carries the raw counts, the total and the number of anomalies, and no
    percentage; the text rendering computes the percentage and is produced
    for every total other than zero.  A run of [analyze_date] exits before
    the reports when the target snapshot is empty, so it never ends in a
    division by zero. *)
Theorem report_zero_total
    (sqrt : Q -> Q) (upper : string -> string)
    (format_float : string -> Q -> string) (round_float : Q -> nat -> Q)
    (anoms : list (string * StatInfo)) (target_date : string)
    (base_period : list string) (warns : list string) :
  (base_period <> [] ->
   (exists report,
      generate_json_report round_float anoms target_date base_period 0 warns
      = Ok report
      /\ total_tickers (metadata report) = 0%Z
      /\ anomalies_found (metadata report) = length anoms
      /\ warnings report = warns)
   /\ (forall total, total <> 0%Z ->
         exists text,
           generate_txt_report format_float anoms target_date base_period
             total warns = Ok text))
  /\ (forall force w,
        fst (analyze_date sqrt upper format_float round_float base_period
               target_date force w) <> Uncaught ZeroDivisionError).
Proof.
  split.
  - intros Hbase. split.
    + destruct (generate_json_report_ok round_float anoms target_date
                  base_period 0 warns Hbase) as (report & H & Ht & Ha & _ & Hw).
      exists report. auto.
    + intros total Htotal.
      apply generate_txt_report_nonzero; assumption.
  - intros force w. unfold analyze_date.
    destruct base_period as [|d ds]; [discriminate|].
    cbn [first_item].
    destruct (load_base_data (d :: ds) force w) as [base_data w1].
    destruct base_data as [|day base_data]; [discriminate|].
    destruct (load_or_fetch_data target_date force w1) as [[target_data|e] w2];
      [|discriminate].
    destruct target_data as [|item target_data]; [discriminate|].
    destruct (calculate_statistics_total sqrt upper (day :: base_data)
                (item :: target_data)) as (stats & ws & -> & _).
    cbn [fst]. unfold save_reports.
    destruct (generate_txt_report_nonzero format_float
                (find_anomalies stats ANOMALY_THRESHOLD_SIGMA) target_date (d :: ds)
                (Z.of_nat (length (item :: target_data))) ws)
      as (text & ->); [discriminate | simpl; lia |].
    destruct (generate_json_report_ok round_float
                (find_anomalies stats ANOMALY_THRESHOLD_SIGMA) target_date (d :: ds)
                (Z.of_nat (length (item :: target_data))) ws)
      as (report & -> & _); [discriminate|].
    discriminate.
Qed.

Lemma report_zero_total_witness :
  ["2026-01-23"%string; "2026-01-29"%string] <> []
  /\ (exists report,
        generate_json_report round_half_up tie_stats "2026-01-30"
          ["2026-01-23"%string; "2026-01-29"%string] 0 ["w"%string] = Ok report
        /\ total_tickers (metadata report) = 0%Z
        /\ anomalies_found (metadata report) = 2%nat
        /\ warnings report = ["w"%string])
  /\ (3%Z <> 0%Z)
  /\ (exists text,
        generate_txt_report format_plain tie_stats "2026-01-30"
          ["2026-01-23"%string; "2026-01-29"%string] 3 ["w"%string] = Ok text).
Proof.
  assert (Hbase : ["2026-01-23"%string; "2026-01-29"%string] <> []) by discriminate.
  assert (Hthree : 3%Z <> 0%Z) by lia.
  pose proof (proj1 (report_zero_total sqrt_approx upper_ascii format_plain
                       round_half_up tie_stats "2026-01-30"
                       ["2026-01-23"%string; "2026-01-29"%string] ["w"%string])
                Hbase) as [Hjson Htxt].
  split; [exact Hbase|]. split; [exact Hjson|]. split; [exact Hthree|].
  exact (Htxt 3%Z Hthree).
Defined.

(** * Further properties *)

(** ** Trading calendar *)

Lemma weekday_lt (d : nat) : (weekday d < 7)%nat.
Proof. unfold weekday. apply Nat.mod_upper_bound. lia. Qed.

Lemma weekday_succ (d : nat) :
  weekday (S d) = if (weekday d =? 6)%nat then 0%nat else S (weekday d).
Proof.
  unfold weekday.
  pose proof (Nat.div_mod_eq (S d + 6) 7).
  pose proof (Nat.div_mod_eq (d + 6) 7).
  pose proof (Nat.mod_upper_bound (S d + 6) 7 ltac:(lia)).
  pose proof (Nat.mod_upper_bound (d + 6) 7 ltac:(lia)).
  destruct (Nat.eqb_spec ((d + 6) mod 7) 6); lia.
Qed.

(** The loop on renderings is the loop on days followed by [strftime]. *)
Lemma trading_dates_loop_days (strftime : nat -> string) days current found :
  trading_dates_loop strftime days current (map strftime found)
  = option_map (map strftime) (trading_days_loop days current found).
Proof.
  revert found. induction current as [|previous IH]; intros found; simpl;
    rewrite length_map.
  - destruct (Z.of_nat (length found) <? days)%Z; reflexivity.
  - destruct (Z.of_nat (length found) <? days)%Z; [|reflexivity].
    destruct (previous =? 0)%nat; [reflexivity|].
    destruct (weekday (S previous) <? 5)%nat.
    + rewrite <- IH, map_app. reflexivity.
    + apply IH.
Qed.

(** What the loop has collected when it returns: as many days as asked
    for, all of them working days after some day [low] and up to [last],
    newest first, and every working day in that range. *)
Lemma trading_days_loop_spec (days : Z) (last : nat) current found out :
  trading_days_loop days current found = Some out ->
  (current <= last)%nat ->
  (Z.of_nat (length found) <= Z.max days 0)%Z ->
  (forall d, d ∈ found -> (current < d <= last)%nat /\ (weekday d < 5)%nat) ->
  StronglySorted gt found ->
  (forall d, (current < d <= last)%nat -> (weekday d < 5)%nat -> d ∈ found) ->
  Z.of_nat (length out) = Z.max days 0
  /\ StronglySorted gt out
  /\ exists low,
       (forall d, d ∈ out -> (low < d <= last)%nat /\ (weekday d < 5)%nat)
       /\ (forall d, (low < d <= last)%nat -> (weekday d < 5)%nat -> d ∈ out).
Proof.
  revert found.
  induction current as [|previous IH]; intros found; simpl;
    destruct (Z.ltb_spec (Z.of_nat (length found)) days) as [Hlt|Hge];
    try discriminate.
  - intros [= <-] Hlast Hlen Hin Hsorted Hall. split; [lia|].
    split; [exact Hsorted|]. exists 0%nat. auto.
  - destruct (Nat.eqb_spec previous 0); [discriminate|].
    intros Hloop Hlast Hlen Hin Hsorted Hall.
    apply IH in Hloop; [exact Hloop| lia | | | |].
    + destruct (weekday (S previous) <? 5)%nat; [|lia].
      rewrite length_app. simpl. lia.
    + intros d Hd.
      destruct (Nat.ltb_spec (weekday (S previous)) 5) as [Hw|Hw].
      * apply elem_of_app in Hd as [Hd|Hd].
        -- apply Hin in Hd. lia.
        -- apply list_elem_of_singleton in Hd. subst d. split; [lia | exact Hw].
      * apply Hin in Hd. lia.
    + destruct (weekday (S previous) <? 5)%nat; [|exact Hsorted].
      apply StronglySorted_app. split; [|split; [exact Hsorted | repeat constructor]].
      intros d1 d2 Hd1 Hd2. apply list_elem_of_singleton in Hd2. subst d2.
      apply Hin in Hd1. lia.
    + intros d Hd Hw.
      destruct (Nat.eq_dec d (S previous)) as [->|Hne].
      * apply Nat.ltb_lt in Hw. rewrite Hw. apply elem_of_app. right.
        apply list_elem_of_here.
      * assert (Hfound : d ∈ found) by (apply Hall; [lia | exact Hw]).
        destruct (weekday (S previous) <? 5)%nat; [|exact Hfound].
        apply elem_of_app. auto.
  - intros [= <-] Hlast Hlen Hin Hsorted Hall. split; [lia|].
    split; [exact Hsorted|]. exists (S previous). auto.
Qed.

Lemma StronglySorted_gt_rev (l : list nat) :
  StronglySorted gt l -> StronglySorted lt (rev l).
Proof.
  induction 1 as [|d l Hl IH Hd]; simpl; [constructor|].
  apply StronglySorted_app. split; [|split; [exact IH | repeat constructor]].
  intros d1 d2 Hd1 Hd2. apply list_elem_of_singleton in Hd2. subst d2.
  rewrite Forall_forall in Hd. apply list_elem_of_In, in_rev in Hd1.
  apply Hd, list_elem_of_In, Hd1.
Qed.

(** X1.  When [get_trading_dates] returns, it returns the renderings of as
    many days as asked for (none for a non-positive request), oldest first,
    all of them Monday to Friday and none after the end date, and they are
    the most recent such days: no working day between the first one
    returned and the end date is left out. *)
Theorem get_trading_dates_shape (strftime : nat -> string) (end_date : nat)
    (days : Z) (dates : list string) :
  get_trading_dates strftime end_date days = Some dates ->
  exists ds low,
    dates = map strftime ds
    /\ Z.of_nat (length ds) = Z.max days 0
    /\ StronglySorted lt ds
    /\ (forall d, d ∈ ds -> (low < d <= end_date)%nat /\ (weekday d < 5)%nat)
    /\ (forall d, (low < d <= end_date)%nat -> (weekday d < 5)%nat -> d ∈ ds).
Proof.
  unfold get_trading_dates.
  change (@nil string) with (map strftime []).
  rewrite trading_dates_loop_days.
  destruct (trading_days_loop days end_date []) as [out|] eqn:Hloop; [|discriminate].
  simpl. intros [= <-].
  apply (trading_days_loop_spec days end_date) in Hloop
    as (Hlen & Hsorted & low & Hin & Hall).
  - exists (rev out), low. rewrite map_rev, length_rev.
    split; [reflexivity|]. split; [exact Hlen|].
    split; [apply StronglySorted_gt_rev, Hsorted|]. split.
    + intros d Hd. apply Hin. apply list_elem_of_In, in_rev, list_elem_of_In, Hd.
    + intros d Hd Hw. apply list_elem_of_In. rewrite <- in_rev.
      apply list_elem_of_In. auto.
  - lia.
  - simpl. lia.
  - intros d Hd. inversion Hd.
  - constructor.
  - intros d Hd. lia.
Qed.

Lemma get_trading_dates_shape_witness :
  get_trading_dates str_nat 40 5 = Some (map str_nat [36; 37; 38; 39; 40]%nat)
  /\ exists ds low,
       map str_nat [36; 37; 38; 39; 40]%nat = map str_nat ds
       /\ Z.of_nat (length ds) = Z.max 5 0
       /\ StronglySorted lt ds
       /\ (forall d, d ∈ ds -> (low < d <= 40)%nat /\ (weekday d < 5)%nat)
       /\ (forall d, (low < d <= 40)%nat -> (weekday d < 5)%nat -> d ∈ ds).
Proof.
  assert (H : get_trading_dates str_nat 40 5
              = Some (map str_nat [36; 37; 38; 39; 40]%nat)) by reflexivity.
  split; [exact H|].
  exact (get_trading_dates_shape str_nat 40 5 _ H).
Defined.

Lemma trading_days_loop_returns (days : Z) current found :
  (days - Z.of_nat (length found) <= 0
   \/ 3 * (days - Z.of_nat (length found))
      + (if (weekday current =? 6)%nat then 2
         else if (weekday current =? 5)%nat then 1 else 0)
      < Z.of_nat current)%Z ->
  exists out, trading_days_loop days current found = Some out.
Proof.
  revert found. induction current as [|previous IH]; intros found Hneed; simpl;
    destruct (Z.ltb_spec (Z.of_nat (length found)) days) as [Hlt|Hge]; eauto.
  - exfalso.
    destruct (weekday 0 =? 6)%nat; [lia|]. destruct (weekday 0 =? 5)%nat; lia.
  - pose proof (weekday_succ previous) as Hsucc.
    pose proof (weekday_lt previous) as Hw7.
    assert (Hprev : previous <> 0%nat).
    { destruct (weekday (S previous) =? 6)%nat; [lia|].
      destruct (weekday (S previous) =? 5)%nat; lia. }
    destruct (Nat.eqb_spec previous 0); [contradiction|].
    apply IH.
    destruct (Nat.eqb_spec (weekday previous) 6) as [Hp6|Hp6];
      destruct (Nat.eqb_spec (weekday previous) 5) as [Hp5|Hp5];
      destruct (Nat.eqb_spec (weekday (S previous)) 6) as [Hs6|Hs6];
      destruct (Nat.eqb_spec (weekday (S previous)) 5) as [Hs5|Hs5];
      destruct (Nat.ltb_spec (weekday (S previous)) 5) as [Hs|Hs];
      try lia; rewrite ?length_app; simpl length; lia.
Qed.

(** X2.  [get_trading_dates] returns whenever the end date is more than
    [3 * days + 2] days after day 1; the [OverflowError] of stepping below
    the first representable day is out of reach for such a request. *)
Theorem get_trading_dates_returns (strftime : nat -> string) (end_date : nat)
    (days : Z) :
  (3 * days + 2 < Z.of_nat end_date)%Z ->
  exists dates, get_trading_dates strftime end_date days = Some dates.
Proof.
  intros Hbound. unfold get_trading_dates.
  change (@nil string) with (map strftime []).
  rewrite trading_dates_loop_days.
  destruct (trading_days_loop_returns days end_date []) as [out ->].
  - right. simpl length.
    destruct (weekday end_date =? 6)%nat; [lia|].
    destruct (weekday end_date =? 5)%nat; lia.
  - simpl. eauto.
Qed.

Lemma get_trading_dates_returns_witness :
  (3 * 5 + 2 < Z.of_nat 40)%Z
  /\ exists dates, get_trading_dates str_nat 40 5 = Some dates.
Proof.
  assert (H : (3 * 5 + 2 < Z.of_nat 40)%Z) by (simpl; lia).
  split; [exact H|].
  exact (get_trading_dates_returns str_nat 40 5 H).
Defined.

(** X3.  A request for zero or fewer days gives the empty list whatever the
    end date, and [init_historical_data] then stops with [IndexError] on
    [dates[0]] before it loads anything; a request that steps below day 1
    stops it with [OverflowError]. *)
Theorem init_historical_data_no_dates (strftime : nat -> string) (now : nat)
    (days : Z) (w : World) :
  ((days <= 0)%Z ->
   get_trading_dates strftime now days = Some []
   /\ init_historical_data strftime now days w = (InitIndexError, w))
  /\ (get_trading_dates strftime now days = None ->
      init_historical_data strftime now days w = (InitOverflowError, w)).
Proof.
  split.
  - intros Hdays.
    assert (H : get_trading_dates strftime now days = Some []).
    { unfold get_trading_dates.
      assert (Hl : (Z.of_nat (length (@nil string)) <? days)%Z = false).
      { apply Z.ltb_ge. simpl. lia. }
      destruct now; cbn [trading_dates_loop]; rewrite Hl; reflexivity. }
    split; [exact H|]. unfold init_historical_data. rewrite H. reflexivity.
  - intros H. unfold init_historical_data. rewrite H. reflexivity.
Qed.

Lemma init_historical_data_no_dates_witness :
  (0 <= 0)%Z
  /\ init_historical_data str_nat 40 0 cached_world = (InitIndexError, cached_world)
  /\ get_trading_dates str_nat 5 5 = None
  /\ init_historical_data str_nat 5 5 cached_world = (InitOverflowError, cached_world).
Proof.
  assert (H0 : (0 <= 0)%Z) by lia.
  assert (H5 : get_trading_dates str_nat 5 5 = None) by reflexivity.
  split; [exact H0|]. split.
  - exact (proj2 (proj1 (init_historical_data_no_dates str_nat 40 0 cached_world) H0)).
  - split; [exact H5|].
    exact (proj2 (init_historical_data_no_dates str_nat 5 5 cached_world) H5).
Defined.

(** ** Upstream fetcher: the retry policy *)

Section RetryFacts.
Variable date : string.

Lemma attempts_in_app t1 t2 : attempts_in (t1 ++ t2) = (attempts_in t1 + attempts_in t2)%nat.
Proof. unfold attempts_in. rewrite List.filter_app, length_app. reflexivity. Qed.

Lemma retry_pauses_in_app t1 t2 :
  retry_pauses_in (t1 ++ t2) = (retry_pauses_in t1 + retry_pauses_in t2)%nat.
Proof. unfold retry_pauses_in. rewrite List.filter_app, length_app. reflexivity. Qed.

(** What one attempt adds to the trace: its first event is the request at
    the offset it starts from, it pauses for no retry, and it starts no
    attempt other than itself. *)
Lemma fetch_pages_trace upstream start all_data trace r upstream' trace' :
  fetch_pages date upstream start all_data trace = (r, upstream', trace') ->
  exists events,
    trace' = trace ++ EvRequest date start :: events
    /\ retry_pauses_in events = 0%nat
    /\ (attempts_in events = 0)%nat.
Proof.
  revert start all_data trace.
  induction upstream as [|resp upstream IH]; intros start all_data trace; simpl.
  - intros [= <- <- <-]. exists []. auto.
  - destruct resp as [|rows].
    + intros [= <- <- <-]. exists []. auto.
    + destruct rows as [|row rows].
      * intros [= <- <- <-]. exists []. auto.
      * intros H. apply IH in H as (events & -> & Hp & Ha).
        replace (start + 100)%nat with (S (start + 99)) in * by lia.
        destruct (length (row :: rows) =? 100)%nat.
        -- exists (EvSleep (1 # 2) :: EvRequest date (S (start + 99)) :: events).
           rewrite <- !app_assoc. simpl. split; [reflexivity|].
           split; [exact Hp | exact Ha].
        -- exists (EvRequest date (S (start + 99)) :: events).
           rewrite <- !app_assoc. simpl. split; [reflexivity|].
           split; [exact Hp | exact Ha].
Qed.

(** The retry loop makes between one and [remaining] attempts, pauses once
    between two attempts and not after the last, and raises only after it
    has used every attempt it had. *)
Lemma fetch_attempts_counts remaining attempt upstream trace r upstream' trace' :
  (remaining + attempt = S MAX_RETRIES)%nat -> (0 < remaining)%nat ->
  fetch_attempts date remaining attempt upstream trace = (r, upstream', trace') ->
  exists k events,
    (1 <= k <= remaining)%nat
    /\ trace' = trace ++ EvRequest date 0 :: events
    /\ attempts_in events = (k - 1)%nat
    /\ retry_pauses_in events = (k - 1)%nat
    /\ (forall e, r = Raise e -> k = remaining).
Proof.
  revert attempt upstream trace.
  induction remaining as [|remaining IH]; intros attempt upstream trace Hsum Hpos;
    [lia|].
  cbn [fetch_attempts].
  destruct (fetch_pages date upstream 0 [] trace) as [[res up1] tr1] eqn:Hpages.
  apply fetch_pages_trace in Hpages as (events & -> & Hp & Ha).
  destruct res as [all_data|].
  - intros [= <- <- <-]. exists 1%nat, events.
    split; [lia|]. split; [reflexivity|]. split; [exact Ha|].
    split; [exact Hp | discriminate].
  - destruct (Nat.ltb_spec attempt MAX_RETRIES) as [Hlt|Hge].
    + intros H. apply IH in H as (k & events' & Hk & -> & Hka & Hkp & Hraise);
        [|lia|lia].
      exists (S k), (events ++ EvSleep RETRY_DELAY :: EvRequest date 0 :: events').
      split; [lia|]. split.
      { rewrite <- !app_assoc. simpl. reflexivity. }
      change (EvSleep RETRY_DELAY :: EvRequest date 0 :: events')
        with ([EvSleep RETRY_DELAY; EvRequest date 0] ++ events').
      rewrite !attempts_in_app, !retry_pauses_in_app, Ha, Hp, Hka, Hkp.
      split; [simpl; lia|]. split; [simpl; lia|].
      intros e He. rewrite (Hraise e He). reflexivity.
    + intros [= <- <- <-]. exists 1%nat, events.
      split; [lia|]. split; [reflexivity|]. split; [exact Ha|].
      split; [exact Hp|]. intros _ _. lia.
Qed.

(** Failed attempts followed by an attempt that gets its pages: the rows of
    the failed attempts are dropped, the rows of the last one aggregated. *)
Lemma fetch_attempts_recovers (fails : list (list (list Row))) pages rest
    remaining attempt trace :
  (remaining + attempt = S MAX_RETRIES)%nat -> (length fails < remaining)%nat ->
  Forall (Forall (fun rows => rows <> [])) fails ->
  Forall (fun rows => rows <> []) pages ->
  exists events,
    fetch_attempts date remaining attempt
      (flat_map failing_attempt fails ++ map Page pages ++ Page [] :: rest) trace
    = (Ok (aggregate_ticker_data (concat pages)), rest, trace ++ events)
    /\ retry_pauses_in events = length fails
    /\ attempts_in events = S (length fails).
Proof.
  intros Hsum Hlen Hfails Hpages. revert remaining attempt trace Hsum Hlen.
  induction Hfails as [|failed fails Hfailed _ IH];
    intros remaining attempt trace Hsum Hlen;
    (destruct remaining as [|remaining]; [simpl in Hlen; lia|]).
  - cbn [flat_map app fetch_attempts].
    pose proof (fetch_pages_until_empty_from date pages rest 0 [] trace Hpages) as Hok.
    change (100 * 0)%nat with 0%nat in Hok. rewrite Hok.
    pose proof (fetch_pages_trace _ _ _ _ _ _ _ Hok) as (events & Htr & Hp & Ha).
    rewrite Htr. exists (EvRequest date 0 :: events).
    split; [reflexivity|].
    change (EvRequest date 0 :: events) with ([EvRequest date 0] ++ events).
    rewrite attempts_in_app, retry_pauses_in_app, Hp, Ha. split; reflexivity.
  - cbn [flat_map fetch_attempts]. rewrite <- app_assoc.
    destruct (fetch_pages_failing date failed
                (flat_map failing_attempt fails ++ map Page pages ++ Page [] :: rest)
                0 [] trace Hfailed) as (tr & Hfail & _).
    rewrite Hfail.
    pose proof (fetch_pages_trace _ _ _ _ _ _ _ Hfail) as (events & -> & Hp & Ha).
    simpl in Hlen.
    destruct (Nat.ltb_spec attempt MAX_RETRIES) as [Hlt|Hge]; [|lia].
    destruct (IH remaining (S attempt)
                ((trace ++ EvRequest date 0 :: events) ++ [EvSleep RETRY_DELAY]))
      as (events' & -> & Hpauses & Hattempts); [lia | lia |].
    exists (([EvRequest date 0] ++ events) ++ [EvSleep RETRY_DELAY] ++ events').
    split.
    { rewrite <- !app_assoc. reflexivity. }
    rewrite !attempts_in_app, !retry_pauses_in_app, Hp, Ha, Hpauses, Hattempts.
    split; simpl; lia.
Qed.
End RetryFacts.

(** X4.  Whatever the upstream answers, one call of
    [fetch_volumes_from_api] makes between one and five attempts, each
    starting with the request at offset 0, pauses for a retry exactly once
    between two attempts and never after the last one, raises only after
    the fifth attempt, and leaves the cache alone. *)
Theorem fetch_volumes_from_api_attempts (date : string) (w : World)
    (r : result (dict TickerInfo)) (w' : World) :
  fetch_volumes_from_api date w = (r, w') ->
  exists k events,
    (1 <= k <= MAX_RETRIES)%nat
    /\ trace w' = trace w ++ EvRequest date 0 :: events
    /\ attempts_in events = (k - 1)%nat
    /\ retry_pauses_in events = (k - 1)%nat
    /\ (forall e, r = Raise e -> k = MAX_RETRIES /\ e = FetchFailed date)
    /\ cache w' = cache w.
Proof.
  intros Hfetch.
  pose proof (fetch_volumes_from_api_cache date w r w' Hfetch) as (Hc & _ & Hout).
  unfold fetch_volumes_from_api in Hfetch.
  destruct (fetch_attempts date MAX_RETRIES 1 (upstream w) (trace w))
    as [[r0 up] tr] eqn:Hrun.
  injection Hfetch as <- <-.
  apply fetch_attempts_counts in Hrun
    as (k & events & Hk & Htr & Ha & Hp & Hraise);
    [|reflexivity | unfold MAX_RETRIES; lia].
  exists k, events. simpl. repeat split; try assumption; try lia.
  - eapply Hraise. eassumption.
  - destruct Hout as [[data ->] | ->]; congruence.
Qed.

Lemma fetch_volumes_from_api_attempts_witness :
  fetch_volumes_from_api "2026-01-30" failing_world
  = (Raise (FetchFailed "2026-01-30"),
     {| cache := ∅; upstream := short_page_script;
        trace := [EvRequest "2026-01-30" 0; EvSleep 60;
                  EvRequest "2026-01-30" 0; EvSleep 60;
                  EvRequest "2026-01-30" 0; EvSleep 60;
                  EvRequest "2026-01-30" 0; EvSleep 60;
                  EvRequest "2026-01-30" 0] |})
  /\ exists k events,
       (1 <= k <= MAX_RETRIES)%nat
       /\ [EvRequest "2026-01-30" 0; EvSleep 60;
           EvRequest "2026-01-30" 0; EvSleep 60;
           EvRequest "2026-01-30" 0; EvSleep 60;
           EvRequest "2026-01-30" 0; EvSleep 60;
           EvRequest "2026-01-30" 0]
          = trace failing_world ++ EvRequest "2026-01-30" 0 :: events
       /\ attempts_in events = (k - 1)%nat
       /\ retry_pauses_in events = (k - 1)%nat
       /\ (forall e, @Raise (dict TickerInfo) (FetchFailed "2026-01-30") = Raise e ->
                     k = MAX_RETRIES /\ e = FetchFailed "2026-01-30")
       /\ (∅ : gmap string Snapshot) = cache failing_world.
Proof.
  assert (H : fetch_volumes_from_api "2026-01-30" failing_world
              = (Raise (FetchFailed "2026-01-30"),
                 {| cache := ∅; upstream := short_page_script;
                    trace := [EvRequest "2026-01-30" 0; EvSleep 60;
                              EvRequest "2026-01-30" 0; EvSleep 60;
                              EvRequest "2026-01-30" 0; EvSleep 60;
                              EvRequest "2026-01-30" 0; EvSleep 60;
                              EvRequest "2026-01-30" 0] |})) by reflexivity.
  split; [exact H|].
  exact (fetch_volumes_from_api_attempts "2026-01-30" failing_world _ _ H).
Defined.

(** X5.  When fewer than five attempts fail and the next one gets its pages
    up to the empty page, the fetch returns the aggregate of the rows of
    that last attempt alone, has paused once per failed attempt, and has
    read the upstream exactly up to the empty page. *)
Theorem fetch_volumes_from_api_recovers (date : string) (w : World)
    (fails : list (list (list Row))) (pages : list (list Row))
    (rest : list Response) :
  (length fails < MAX_RETRIES)%nat ->
  Forall (Forall (fun rows => rows <> [])) fails ->
  Forall (fun rows => rows <> []) pages ->
  upstream w = flat_map failing_attempt fails ++ map Page pages ++ Page [] :: rest ->
  exists events,
    fetch_volumes_from_api date w
    = (Ok (aggregate_ticker_data (concat pages)),
       {| cache := cache w; upstream := rest; trace := trace w ++ events |})
    /\ retry_pauses_in events = length fails
    /\ attempts_in events = S (length fails).
Proof.
  intros Hlen Hfails Hpages Hup.
  destruct (fetch_attempts_recovers date fails pages rest MAX_RETRIES 1 (trace w))
    as (events & Hrun & Hp & Ha); [reflexivity | exact Hlen | exact Hfails | exact Hpages |].
  exists events. unfold fetch_volumes_from_api. rewrite Hup, Hrun. auto.
Qed.

Lemma fetch_volumes_from_api_recovers_witness :
  (length [[[sample_row "LKOH" 1]]; []] < MAX_RETRIES)%nat
  /\ Forall (Forall (fun rows : list Row => rows <> []))
            [[[sample_row "LKOH" 1]]; []]
  /\ Forall (fun rows : list Row => rows <> []) [[sample_row "SBER" 100]]
  /\ exists events,
       fetch_volumes_from_api "2026-01-30"
         {| cache := ∅;
            upstream := [Page [sample_row "LKOH" 1]; RequestException;
                         RequestException] ++ short_page_script;
            trace := [] |}
       = (Ok (aggregate_ticker_data (concat [[sample_row "SBER" 100]])),
          {| cache := ∅; upstream := [Page [sample_row "GAZP" 7]];
             trace := [] ++ events |})
       /\ retry_pauses_in events = 2%nat
       /\ attempts_in events = 3%nat.
Proof.
  assert (H1 : (length [[[sample_row "LKOH" 1]]; ([] : list (list Row))]
                < MAX_RETRIES)%nat) by (unfold MAX_RETRIES; simpl; lia).
  assert (H2 : Forall (Forall (fun rows : list Row => rows <> []))
                 [[[sample_row "LKOH" 1]]; []]).
  { repeat constructor. discriminate. }
  assert (H3 : Forall (fun rows : list Row => rows <> [])
                 [[sample_row "SBER" 100]]).
  { repeat constructor. discriminate. }
  split; [exact H1|]. split; [exact H2|]. split; [exact H3|].
  exact (fetch_volumes_from_api_recovers "2026-01-30"
           {| cache := ∅;
              upstream := [Page [sample_row "LKOH" 1]; RequestException;
                           RequestException] ++ short_page_script;
              trace := [] |}
           [[[sample_row "LKOH" 1]]; []] [[sample_row "SBER" 100]]
           [Page [sample_row "GAZP" 7]] H1 H2 H3 eq_refl).
Defined.

(** ** Data provider: the cache as a store *)

(** X6.  What a call of [load_or_fetch_data] returned is what a following
    call with [force=False] for the same date returns, and that following
    call changes nothing: the data was either read from the cache or
    written to it. *)
Theorem load_or_fetch_data_then_cached (date : string) (force : bool) (w : World)
    (data : dict TickerInfo) (w' : World) :
  load_or_fetch_data date force w = (Ok data, w') ->
  load_or_fetch_data date false w' = (Ok data, w').
Proof.
  unfold load_or_fetch_data at 1.
  destruct (if negb force then cache w !! date else None) as [cached|] eqn:Hhit.
  - intros [= <- <-]. destruct force; [discriminate|]. simpl in Hhit.
    unfold load_or_fetch_data. simpl. rewrite Hhit. reflexivity.
  - destruct (fetch_volumes_from_api date w) as [[fetched|e] w1]; [|discriminate].
    intros [= <- <-]. unfold load_or_fetch_data. simpl.
    rewrite lookup_insert_eq. reflexivity.
Qed.

Lemma load_or_fetch_data_then_cached_witness :
  load_or_fetch_data "2026-01-30" true
    {| cache := cache cached_world; upstream := [Page []]; trace := [] |}
  = (Ok [],
     {| cache := <["2026-01-30"%string :=
                    {| snap_date := "2026-01-30"; snap_tickers := [] |}]>
                   (cache cached_world);
        upstream := [];
        trace := [EvRequest "2026-01-30" 0; EvCacheWrite "2026-01-30"] |})
  /\ load_or_fetch_data "2026-01-30" false
       {| cache := <["2026-01-30"%string :=
                      {| snap_date := "2026-01-30"; snap_tickers := [] |}]>
                     (cache cached_world);
          upstream := [];
          trace := [EvRequest "2026-01-30" 0; EvCacheWrite "2026-01-30"] |}
     = (Ok [],
        {| cache := <["2026-01-30"%string :=
                       {| snap_date := "2026-01-30"; snap_tickers := [] |}]>
                      (cache cached_world);
           upstream := [];
           trace := [EvRequest "2026-01-30" 0; EvCacheWrite "2026-01-30"] |}).
Proof.
  assert (H : load_or_fetch_data "2026-01-30" true
                {| cache := cache cached_world; upstream := [Page []]; trace := [] |}
              = (Ok [],
                 {| cache := <["2026-01-30"%string :=
                                {| snap_date := "2026-01-30"; snap_tickers := [] |}]>
                               (cache cached_world);
                    upstream := [];
                    trace := [EvRequest "2026-01-30" 0; EvCacheWrite "2026-01-30"] |}))
    by reflexivity.
  split; [exact H|].
  exact (load_or_fetch_data_then_cached "2026-01-30" true _ _ _ H).
Defined.

Lemma load_or_fetch_data_frame date force w r w' :
  load_or_fetch_data date force w = (r, w') ->
  (forall d, d <> date -> cache w' !! d = cache w !! d)
  /\ (force = false ->
      forall d s, cache w !! d = Some s -> cache w' !! d = Some s)
  /\ (force = true \/ cache w !! date = None ->
      exists events, trace w' = trace w ++ EvRequest date 0 :: events).
Proof.
  unfold load_or_fetch_data.
  destruct (if negb force then cache w !! date else None) as [cached|] eqn:Hhit.
  - intros [= <- <-]. split; [auto|]. split; [auto|].
    intros [-> | Hnone]; [discriminate|].
    destruct force; [discriminate|]. simpl in Hhit. congruence.
  - destruct (fetch_volumes_from_api date w) as [r1 w1] eqn:Hfetch.
    destruct (fetch_volumes_from_api_attempts date w r1 w1 Hfetch)
      as (k & events & _ & Htr & _ & _ & _ & Hc).
    destruct r1 as [data|e]; intros [= <- <-]; simpl; rewrite ?Hc.
    + split; [intros d Hd; apply lookup_insert_ne; congruence|]. split.
      * intros -> d s Hs. simpl in Hhit.
        destruct (decide (d = date)) as [->|Hne]; [congruence|].
        rewrite lookup_insert_ne by congruence. exact Hs.
      * intros _. exists (events ++ [EvCacheWrite date]).
        rewrite Htr, <- app_assoc. reflexivity.
    + split; [auto|]. split; [auto|]. intros _. eauto.
Qed.

(** X7.  A call of [load_or_fetch_data] never touches the cache entry of
    another date; with [force=False] it never replaces an entry that is
    there; and when forced, or when the date is not cached, the first thing
    it does is the request of the first page. *)
Theorem load_or_fetch_data_cache_effects (date : string) (force : bool) (w : World)
    (r : result (dict TickerInfo)) (w' : World) :
  load_or_fetch_data date force w = (r, w') ->
  (forall d, d <> date -> cache w' !! d = cache w !! d)
  /\ (force = false ->
      forall d s, cache w !! d = Some s -> cache w' !! d = Some s)
  /\ (force = true \/ cache w !! date = None ->
      exists events, trace w' = trace w ++ EvRequest date 0 :: events).
Proof. apply load_or_fetch_data_frame. Qed.

Lemma load_or_fetch_data_cache_effects_witness :
  load_or_fetch_data "2026-01-29" false cached_world
  = (Ok [("SBER"%string,
          {| shortname := "SBER"; volume := 10; value := 0 + 100; numtrades := 0 |})],
     snd (load_or_fetch_data "2026-01-29" false cached_world))
  /\ cache (snd (load_or_fetch_data "2026-01-29" false cached_world))
       !! "2026-01-30"%string
     = cache cached_world !! "2026-01-30"%string.
Proof.
  assert (H : load_or_fetch_data "2026-01-29" false cached_world
              = (Ok [("SBER"%string,
                      {| shortname := "SBER"; volume := 10; value := 0 + 100;
                         numtrades := 0 |})],
                 snd (load_or_fetch_data "2026-01-29" false cached_world)))
    by reflexivity.
  split; [exact H|].
  exact (proj1 (load_or_fetch_data_cache_effects "2026-01-29" false cached_world
                  _ _ H) "2026-01-30"%string ltac:(discriminate)).
Defined.

(** ** Initialisation run *)

(** X8.  The loading loop of [init_historical_data] keeps every snapshot
    that is already cached, changes no entry of a date it was not asked
    for, and does nothing at all, no request and no write, when every date
    is already cached; so a second run over the same dates is free. *)
Theorem init_loop_cache (dates : list string) (w : World) :
  (forall d s, cache w !! d = Some s -> cache (init_loop dates w) !! d = Some s)
  /\ (forall d, d ∉ dates -> cache (init_loop dates w) !! d = cache w !! d)
  /\ ((forall d, d ∈ dates -> is_Some (cache w !! d)) -> init_loop dates w = w).
Proof.
  revert w. induction dates as [|date dates IH]; intros w; simpl.
  - auto.
  - destruct (load_or_fetch_data date false w) as [r w1] eqn:Hload.
    pose proof (load_or_fetch_data_frame date false w r w1 Hload)
      as (Hother & Hkeep & _).
    destruct (IH w1) as (IH1 & IH2 & IH3). simpl. split; [|split].
    + intros d s Hs. apply IH1, Hkeep; [reflexivity | exact Hs].
    + intros d Hd. apply not_elem_of_cons in Hd as [Hne Hd].
      rewrite IH2 by exact Hd. apply Hother, Hne.
    + intros Hall.
      destruct (Hall date ltac:(apply list_elem_of_here)) as [cached Hc].
      assert (Hw1 : w1 = w).
      { unfold load_or_fetch_data in Hload. simpl in Hload. rewrite Hc in Hload.
        congruence. }
      subst w1. apply IH3. intros d Hd. apply Hall, list_elem_of_further, Hd.
Qed.

Lemma init_loop_cache_witness :
  (forall d, d ∈ ["2026-01-30"%string; "2026-01-30"%string] ->
             is_Some (cache cached_world !! d))
  /\ init_loop ["2026-01-30"%string; "2026-01-30"%string] cached_world = cached_world.
Proof.
  assert (H : forall d, d ∈ ["2026-01-30"%string; "2026-01-30"%string] ->
                        is_Some (cache cached_world !! d)).
  { intros d Hd. apply list_elem_of_In in Hd. simpl in Hd.
    destruct Hd as [<-|[<-|[]]]; eexists; apply lookup_singleton_eq. }
  split; [exact H|].
  exact (proj2 (proj2 (init_loop_cache _ cached_world)) H).
Defined.

(** ** Statistics engine: the whole mapping *)

Lemma baseline_values_length (base_data : list (dict TickerInfo)) (ticker : string) :
  (length (baseline_values base_data ticker) <= length base_data)%nat.
Proof.
  unfold baseline_values. induction base_data as [|day base_data IH]; simpl; [lia|].
  rewrite length_app. destruct (Dict.get ticker day); simpl; lia.
Qed.

Lemma dict_set_fresh {V : Type} (k : string) (v : V) (d : dict V) :
  k ∉ Dict.keys d -> Dict.set k v d = d ++ [(k, v)].
Proof.
  induction d as [|[k0 v0] d IH]; simpl; intros Hk; [reflexivity|].
  apply not_elem_of_cons in Hk as [Hne Hk].
  destruct (String.eqb_spec k k0); [contradiction|]. rewrite IH by exact Hk.
  reflexivity.
Qed.

Lemma dict_set_elem_of {V : Type} (k : string) (v : V) (d : dict V) (x : string * V) :
  x ∈ Dict.set k v d -> x = (k, v) \/ x ∈ d.
Proof.
  induction d as [|[k0 v0] d IH]; simpl.
  - intros H. apply list_elem_of_singleton in H. auto.
  - destruct (String.eqb_spec k k0) as [->|Hne]; intros H;
      apply elem_of_cons in H as [H|H]; auto.
    + right. apply list_elem_of_further, H.
    + right. rewrite H. apply list_elem_of_here.
    + destruct (IH H) as [Hx|Hx]; [auto|]. right. apply list_elem_of_further, Hx.
Qed.

Lemma dict_set_length {V : Type} (k : string) (v : V) (d : dict V) :
  (length (Dict.set k v d) <= S (length d))%nat.
Proof.
  induction d as [|[k0 v0] d IH]; simpl; [lia|].
  destruct (String.eqb k k0); simpl; lia.
Qed.

Section ScoringFacts.
Variable sqrt : Q -> Q.
Variable upper : string -> string.
Variable base_data : list (dict TickerInfo).

#[local] Abbreviation step := (calculate_statistics_body sqrt upper base_data).
#[local] Abbreviation scored := (is_scored upper base_data).
#[local] Abbreviation short := (has_short_history upper base_data).

(** One iteration, in full: a scored item stores its statistics under its
    ticker and, with a single baseline value, appends its warning; any
    other item changes nothing. *)
Lemma body_cases stats ws ticker target_info :
  exists st,
    step (stats, ws) (ticker, target_info)
    = Ok (if scored (ticker, target_info) then Dict.set ticker st stats else stats,
          ws ++ (if short (ticker, target_info)
                 then [short_history_warning ticker 1] else []))
    /\ (scored (ticker, target_info) = true ->
        entry_of sqrt base_data ticker target_info st).
Proof.
  unfold is_scored, has_short_history, is_scored. cbn [fst snd].
  destruct (startswith ticker EXCLUDED_TICKER_PREFIXES) eqn:Hprefix.
  { exists (sample_stat "" 0). unfold calculate_statistics_body.
    rewrite Hprefix, app_nil_r. split; [reflexivity | discriminate]. }
  destruct (name_excluded upper (shortname target_info)) eqn:Hname.
  { exists (sample_stat "" 0). unfold calculate_statistics_body.
    rewrite Hprefix, Hname, app_nil_r. split; [reflexivity | discriminate]. }
  destruct (baseline_values base_data ticker) as [|v [|v' vs]] eqn:Hvals.
  - exists (sample_stat "" 0). unfold calculate_statistics_body.
    rewrite Hprefix, Hname, Hvals, app_nil_r. split; [reflexivity | discriminate].
  - eexists. split.
    + exact (body_single_value sqrt upper base_data stats ws ticker target_info v
               Hprefix Hname Hvals).
    + intros _. unfold entry_of. rewrite Hvals. cbn [length Nat.leb].
      repeat split.
      assert (Hstd : Qltb 0 (if Qltb 0 (Qsum [v] / Qlen [v])
                             then Qsum [v] / Qlen [v] * (1 # 100) else 1) = true).
      { apply Qltb_lt. destruct (Qltb 0 (Qsum [v] / Qlen [v])) eqn:Hm; [|reflexivity].
        apply Qltb_lt in Hm. apply Qmult_lt_0_compat; [exact Hm | reflexivity]. }
      cbn [std_value z_score]. rewrite Hstd. reflexivity.
  - eexists. split.
    + cbn [length Nat.eqb negb andb].
      exact (body_many_values sqrt upper base_data stats ws ticker target_info _
               Hprefix Hname Hvals ltac:(simpl; lia)).
    + intros _. unfold entry_of. rewrite Hvals. repeat split.
Qed.

(** The loop over a stretch of the target snapshot. *)
Lemma foldM_body_scored (items : dict TickerInfo) stats ws :
  exists stats',
    foldM step items (stats, ws)
    = Ok (stats',
          ws ++ map (fun item => short_history_warning (fst item) 1)
                    (List.filter short items))
    /\ (length stats' <= length stats + length items)%nat
    /\ (NoDup (Dict.keys items) ->
        (forall k, k ∈ Dict.keys items -> k ∉ Dict.keys stats) ->
        Dict.keys stats' = Dict.keys stats ++ map fst (List.filter scored items))
    /\ (forall x, x ∈ stats' ->
        x ∈ stats
        \/ exists target_info,
             (fst x, target_info) ∈ items
             /\ scored (fst x, target_info) = true
             /\ entry_of sqrt base_data (fst x) target_info (snd x)).
Proof.
  revert stats ws.
  induction items as [|[ticker info] items IH]; intros stats ws; cbn [foldM].
  - exists stats. simpl. rewrite !app_nil_r. split; [reflexivity|].
    split; [lia|]. auto.
  - destruct (body_cases stats ws ticker info) as (st & -> & Hentry). cbn [rbind].
    set (stats1 := if scored (ticker, info) then Dict.set ticker st stats else stats).
    destruct (IH stats1 (ws ++ (if short (ticker, info)
                                then [short_history_warning ticker 1] else [])))
      as (stats' & -> & Hlen & Hkeys & Hall).
    exists stats'. split; [|split; [|split]].
    + cbn [List.filter]. destruct (short (ticker, info)); simpl;
        rewrite <- ?app_assoc; reflexivity.
    + assert (length stats1 <= S (length stats))%nat.
      { subst stats1. destruct (scored (ticker, info)); [apply dict_set_length | lia]. }
      simpl. lia.
    + intros Hnd Hfresh. simpl in Hnd. apply NoDup_cons in Hnd as [Hnotin Hnd].
      assert (Hk1 : Dict.keys stats1
                    = Dict.keys stats ++ (if scored (ticker, info) then [ticker] else [])).
      { subst stats1. destruct (scored (ticker, info)); [|rewrite app_nil_r; reflexivity].
        rewrite dict_set_fresh.
        - unfold Dict.keys. rewrite map_app. reflexivity.
        - apply Hfresh. simpl. apply list_elem_of_here. }
      rewrite Hkeys; [| exact Hnd |].
      * rewrite Hk1. cbn [List.filter].
        destruct (scored (ticker, info)); simpl; rewrite <- ?app_assoc; reflexivity.
      * intros k Hk. rewrite Hk1. intros Hin. apply elem_of_app in Hin as [Hin|Hin].
        -- eapply Hfresh; [|exact Hin]. simpl. apply list_elem_of_further, Hk.
        -- destruct (scored (ticker, info)); [|inversion Hin].
           apply list_elem_of_singleton in Hin. subst k. contradiction.
    + intros x Hx. destruct (Hall x Hx) as [Hx1 | (ti & Hin & Hs & He)].
      * subst stats1. destruct (scored (ticker, info)) eqn:Hsc; [|auto].
        apply dict_set_elem_of in Hx1 as [-> | Hx1]; [|auto].
        right. exists info. simpl. split; [apply list_elem_of_here|]. auto.
      * right. exists ti. split; [apply list_elem_of_further, Hin|]. auto.
Qed.
End ScoringFacts.

(** ** Anomaly selector: ranking as an operation *)

Section SortMore.
Context {A : Type} (key : A -> Q).

Lemma insert_desc_head x l :
  Forall (fun y => key y <= key x) l -> insert_desc key x l = x :: l.
Proof.
  destruct l as [|y l]; [reflexivity|]. intros H. apply Forall_cons in H as [Hy _].
  simpl. apply Qltb_ge in Hy. rewrite Hy. reflexivity.
Qed.

Lemma sort_desc_strongly_sorted l : StronglySorted (desc key) (sort_desc key l).
Proof.
  apply Sorted_StronglySorted; [apply desc_trans | apply sort_desc_sorted].
Qed.


(** Among items of one key the insertion puts the new item first. *)
Lemma filter_key_insert_desc q x l :
  List.filter (fun y => Qeq_bool (key y) q) (insert_desc key x l)
  = List.filter (fun y => Qeq_bool (key y) q) (x :: l).
Proof.
  induction l as [|y l IH]; [reflexivity|].
  cbn [insert_desc]. destruct (Qltb (key x) (key y)) eqn:Hlt; [|reflexivity].
  cbn [List.filter] in *. rewrite IH.
  destruct (Qeq_bool (key x) q) eqn:Hx; [|reflexivity].
  destruct (Qeq_bool (key y) q) eqn:Hy; [|reflexivity].
  exfalso. apply Qltb_lt in Hlt. apply Qeq_bool_iff in Hx, Hy.
  rewrite Hx, Hy in Hlt. exact (Qlt_irrefl _ Hlt).
Qed.

Lemma filter_key_sort_desc q l :
  List.filter (fun y => Qeq_bool (key y) q) (sort_desc key l)
  = List.filter (fun y => Qeq_bool (key y) q) l.
Proof.
  induction l as [|x l IH]; [reflexivity|].
  cbn [sort_desc fold_right]. fold (sort_desc key l).
  rewrite filter_key_insert_desc. cbn [List.filter]. rewrite IH. reflexivity.
Qed.

(** Dropping items from a ranking leaves the others in their order. *)
Lemma filter_insert_desc (p : A -> bool) x l :
  StronglySorted (desc key) l ->
  List.filter p (insert_desc key x l)
  = if p x then insert_desc key x (List.filter p l) else List.filter p l.
Proof.
  induction 1 as [|y l Hl IH Hy]; cbn [insert_desc List.filter].
  - destruct (p x); reflexivity.
  - destruct (Qltb (key x) (key y)) eqn:Hlt; cbn [List.filter].
    + rewrite IH. destruct (p x), (p y); cbn [insert_desc]; rewrite ?Hlt; reflexivity.
    + destruct (p x); [|reflexivity].
      symmetry. apply insert_desc_head.
      apply Qltb_ge in Hlt.
      assert (Hall : Forall (fun z => key z <= key x) (y :: l)).
      { constructor; [exact Hlt|].
        eapply Forall_impl; [exact Hy|]. intros z Hz. unfold desc in Hz.
        eapply Qle_trans; eassumption. }
      change (if p y then y :: List.filter p l else List.filter p l)
        with (List.filter p (y :: l)).
      apply Forall_forall. intros z Hz. rewrite Forall_forall in Hall.
      apply Hall. apply list_elem_of_In. apply list_elem_of_In in Hz.
      apply List.filter_In in Hz. tauto.
Qed.

Lemma filter_sort_desc (p : A -> bool) l :
  List.filter p (sort_desc key l) = sort_desc key (List.filter p l).
Proof.
  induction l as [|x l IH]; [reflexivity|].
  cbn [sort_desc fold_right List.filter]. fold (sort_desc key l).
  rewrite filter_insert_desc by apply sort_desc_strongly_sorted.
  rewrite IH. destruct (p x); reflexivity.
Qed.
End SortMore.

Lemma filter_sublist {A : Type} (f : A -> bool) (l : list A) :
  List.filter f l `sublist_of` l.
Proof.
  induction l as [|x l IH]; simpl; [constructor|].
  destruct (f x); [apply sublist_skip | apply sublist_cons]; exact IH.
Qed.

Lemma filter_filter_and {A : Type} (f g : A -> bool) (l : list A) :
  List.filter f (List.filter g l) = List.filter (fun x => g x && f x) l.
Proof.
  induction l as [|x l IH]; simpl; [reflexivity|].
  destruct (g x); simpl; rewrite IH; reflexivity.
Qed.

(** X9.  The anomaly list is a rearrangement of exactly the entries that
    pass the three tests: nothing is dropped, added or repeated, so it is
    never longer than the statistics and lists a ticker at most once. *)
Theorem find_anomalies_rearranges (stats : dict StatInfo) (threshold : Q) :
  find_anomalies stats threshold
    ≡ₚ List.filter (fun item => is_anomaly threshold (snd item)) stats
  /\ (length (find_anomalies stats threshold) <= length stats)%nat
  /\ (NoDup (Dict.keys stats) -> NoDup (Dict.keys (find_anomalies stats threshold))).
Proof.
  assert (Hperm : find_anomalies stats threshold
                    ≡ₚ List.filter (fun item => is_anomaly threshold (snd item)) stats).
  { unfold find_anomalies. apply sort_desc_perm. }
  split; [exact Hperm|]. split.
  - rewrite Hperm. apply List.filter_length_le.
  - intros Hnd. unfold Dict.keys. rewrite Hperm.
    eapply sublist_NoDup; [exact Hnd|].
    apply (fmap_sublist fst), filter_sublist.
Qed.

Lemma find_anomalies_rearranges_witness :
  NoDup (Dict.keys ranked_stats)
  /\ NoDup (Dict.keys (find_anomalies ranked_stats 3)).
Proof.
  assert (Hnd : NoDup (Dict.keys ranked_stats)).
  { apply NoDup_ListNoDup. repeat constructor; simpl; intuition discriminate. }
  split; [exact Hnd|].
  exact (proj2 (proj2 (find_anomalies_rearranges ranked_stats 3)) Hnd).
Defined.

(** X10.  The ranking is stable: the selected entries that share a z-score
    appear in the anomaly list in the order in which the statistics
    mapping lists them. *)
Theorem find_anomalies_stable (stats : dict StatInfo) (threshold q : Q) :
  List.filter (fun item => Qeq_bool (z_score (snd item)) q)
    (find_anomalies stats threshold)
  = List.filter (fun item => Qeq_bool (z_score (snd item)) q)
      (List.filter (fun item => is_anomaly threshold (snd item)) stats).
Proof.
  unfold find_anomalies.
  apply (filter_key_sort_desc (fun x : string * StatInfo => z_score (snd x))).
Qed.


(** X12.  Raising the threshold only removes entries: the anomaly list for
    the higher threshold is the list for the lower one without the entries
    whose z-score is not above the higher threshold, the others keeping
    their order. *)
Theorem find_anomalies_threshold_monotone (stats : dict StatInfo) (low high : Q) :
  low <= high ->
  find_anomalies stats high
  = List.filter (fun item => Qltb high (z_score (snd item)))
      (find_anomalies stats low).
Proof.
  intros Hle. unfold find_anomalies.
  rewrite filter_sort_desc, filter_filter_and. f_equal.
  apply List.filter_ext. intros [ticker info]. unfold is_anomaly. simpl.
  destruct (Qltb high (z_score info)) eqn:Hhigh.
  - assert (Hlow : Qltb low (z_score info) = true).
    { apply Qltb_lt. apply Qltb_lt in Hhigh. eapply Qle_lt_trans; eassumption. }
    rewrite Hlow. simpl. rewrite andb_true_r. reflexivity.
  - simpl. rewrite andb_false_r. reflexivity.
Qed.

Lemma find_anomalies_threshold_monotone_witness :
  3 <= 10
  /\ find_anomalies ranked_stats 10
     = List.filter (fun item => Qltb 10 (z_score (snd item)))
         (find_anomalies ranked_stats 3)
  /\ find_anomalies ranked_stats 10 = [("BBBB"%string, sample_stat "Beta" 80)].
Proof.
  assert (H : 3 <= 10) by discriminate.
  split; [exact H|]. split; [|reflexivity].
  exact (find_anomalies_threshold_monotone ranked_stats 3 10 H).
Defined.

(** ** Statistics engine: the whole mapping, continued *)



(** X14.  For a target snapshot with distinct keys, the statistics hold
    exactly the items that pass the prefix test, the name test and have a
    baseline value, in the order of the target snapshot, and the warnings
    are the messages of exactly those among them that have a single
    baseline value, in the same order. *)
Theorem calculate_statistics_keys_and_warnings
    (sqrt : Q -> Q) (upper : string -> string)
    (base_data : list (dict TickerInfo)) (target_data : dict TickerInfo) :
  NoDup (Dict.keys target_data) ->
  exists stats,
    calculate_statistics sqrt upper base_data target_data
    = Ok (stats,
          map (fun item => short_history_warning (fst item) 1)
              (List.filter (has_short_history upper base_data) target_data))
    /\ Dict.keys stats
       = map fst (List.filter (is_scored upper base_data) target_data).
Proof.
  intros Hnd. unfold calculate_statistics.
  destruct (foldM_body_scored sqrt upper base_data target_data [] [])
    as (stats & Hfold & _ & Hkeys & _).
  exists stats. split; [exact Hfold|].
  apply Hkeys; [exact Hnd|]. intros k _ Hin. inversion Hin.
Qed.

Lemma calculate_statistics_keys_and_warnings_witness :
  NoDup (Dict.keys mixed_target)
  /\ exists stats,
       calculate_statistics sqrt_approx upper_ascii one_day_base mixed_target
       = Ok (stats,
             map (fun item => short_history_warning (fst item) 1)
                 (List.filter (has_short_history upper_ascii one_day_base)
                    mixed_target))
       /\ Dict.keys stats
          = map fst (List.filter (is_scored upper_ascii one_day_base) mixed_target).
Proof.
  assert (Hnd : NoDup (Dict.keys mixed_target)).
  { apply NoDup_ListNoDup. repeat constructor; simpl; intuition discriminate. }
  split; [exact Hnd|].
  exact (calculate_statistics_keys_and_warnings sqrt_approx upper_ascii
           one_day_base mixed_target Hnd).
Defined.

Example calculate_statistics_mixed_target :
  map fst (List.filter (is_scored upper_ascii one_day_base) mixed_target)
  = ["SBER"%string]
  /\ map (fun item => short_history_warning (fst item) 1)
         (List.filter (has_short_history upper_ascii one_day_base) mixed_target)
     = ["Тикер SBER: только 1 день(ей) данных вместо 5"%string].
Proof. split; reflexivity. Qed.

(** X15.  Every entry of the statistics belongs to an item of the target
    snapshot that passes the three tests, and its fields are those of
    [entry_of]: the item's name and value, the number of baseline values,
    which is at least 1 and at most the number of baseline snapshots, their
    mean, the sample deviation from two values on and the synthetic one
    otherwise, a z-score that is 0 unless the deviation is positive, and a
    percent deviation that is 0 unless the mean is positive. *)
Theorem calculate_statistics_entries
    (sqrt : Q -> Q) (upper : string -> string)
    (base_data : list (dict TickerInfo)) (target_data : dict TickerInfo)
    (stats : dict StatInfo) (ws : list string) (ticker : string) (st : StatInfo) :
  calculate_statistics sqrt upper base_data target_data = Ok (stats, ws) ->
  Dict.get ticker stats = Some st ->
  exists target_info,
    (ticker, target_info) ∈ target_data
    /\ is_scored upper base_data (ticker, target_info) = true
    /\ entry_of sqrt base_data ticker target_info st
    /\ (1 <= base_days_count st <= length base_data)%nat.
Proof.
  intros Hcalc Hget. unfold calculate_statistics in Hcalc.
  destruct (foldM_body_scored sqrt upper base_data target_data [] [])
    as (stats' & Hfold & _ & _ & Hall).
  rewrite Hfold in Hcalc. injection Hcalc as <- _.
  apply DictFacts.get_elem_of in Hget.
  destruct (Hall _ Hget) as [Hin | (target_info & Hin & Hscored & Hentry)];
    [inversion Hin|].
  simpl in *. exists target_info. split; [exact Hin|]. split; [exact Hscored|].
  split; [exact Hentry|].
  destruct Hentry as (_ & _ & Hdays & _). rewrite Hdays.
  pose proof (baseline_values_length base_data ticker).
  unfold is_scored in Hscored. simpl in Hscored.
  apply andb_true_iff in Hscored as [_ Hlen]. apply negb_true_iff in Hlen.
  apply Nat.eqb_neq in Hlen. lia.
Qed.

Lemma calculate_statistics_entries_witness :
  exists stats ws st,
    calculate_statistics sqrt_approx upper_ascii five_day_base mixed_target
    = Ok (stats, ws)
    /\ Dict.get "SBER" stats = Some st
    /\ exists target_info,
         ("SBER"%string, target_info) ∈ mixed_target
         /\ is_scored upper_ascii five_day_base ("SBER"%string, target_info) = true
         /\ entry_of sqrt_approx five_day_base "SBER" target_info st
         /\ (1 <= base_days_count st <= length five_day_base)%nat.
Proof.
  destruct (calculate_statistics sqrt_approx upper_ascii five_day_base mixed_target)
    as [[stats ws]|e] eqn:Hcalc; [|vm_compute in Hcalc; discriminate Hcalc].
  destruct (Dict.get "SBER" stats) as [st|] eqn:Hget.
  - exists stats, ws, st. split; [reflexivity|]. split; [exact Hget|].
    exact (calculate_statistics_entries sqrt_approx upper_ascii five_day_base
             mixed_target stats ws "SBER" st Hcalc Hget).
  - exfalso. vm_compute in Hcalc. injection Hcalc as <- _.
    vm_compute in Hget. discriminate Hget.
Defined.

(** ** Aggregator: totals *)

Section AggregateTotals.
Variable proj : TickerInfo -> Z.

Lemma sumZ_app l1 l2 : sumZ (l1 ++ l2) = (sumZ l1 + sumZ l2)%Z.
Proof. unfold sumZ. induction l1 as [|x l1 IH]; simpl; lia. Qed.

Lemma sumZ_alter (f : TickerInfo -> TickerInfo) (c : Z) k (d : dict TickerInfo) :
  (forall r, proj (f r) = (proj r + c)%Z) ->
  k ∈ Dict.keys d ->
  sumZ (map (fun kv => proj (snd kv)) (Dict.alter f k d))
  = (sumZ (map (fun kv => proj (snd kv)) d) + c)%Z.
Proof.
  intros Hf. induction d as [|[k0 r0] d IH]; simpl; intros Hk.
  - inversion Hk.
  - destruct (String.eqb_spec k k0) as [->|Hne]; simpl.
    + rewrite Hf. lia.
    + apply elem_of_cons in Hk as [Hk|Hk]; [contradiction|].
      rewrite IH by exact Hk. lia.
Qed.

Lemma sumZ_alter_same (f : TickerInfo -> TickerInfo) k (d : dict TickerInfo) :
  (forall r, proj (f r) = proj r) ->
  sumZ (map (fun kv => proj (snd kv)) (Dict.alter f k d))
  = sumZ (map (fun kv => proj (snd kv)) d).
Proof.
  intros Hf. induction d as [|[k0 r0] d IH]; simpl; [reflexivity|].
  destruct (String.eqb k k0); simpl; rewrite ?Hf, ?IH; reflexivity.
Qed.
End AggregateTotals.

Lemma aggregate_row_key_present agg r :
  startswith (row_secid r) EXCLUDED_TICKER_PREFIXES = false ->
  row_secid r ∈ Dict.keys
    (if Dict.contains (row_secid r) agg then agg
     else Dict.set (row_secid r)
            {| shortname := row_shortname r; volume := 0; value := 0;
               numtrades := 0 |} agg).
Proof.
  intros _. unfold Dict.contains.
  destruct (Dict.get (row_secid r) agg) eqn:Hget.
  - apply DictFacts.elem_of_keys. congruence.
  - apply DictFacts.elem_of_keys. rewrite DictFacts.get_set, String.eqb_refl.
    discriminate.
Qed.

Lemma aggregate_row_totals agg r :
  sumZ (map (fun kv => volume (snd kv)) (aggregate_row agg r))
  = (sumZ (map (fun kv => volume (snd kv)) agg)
     + (if startswith (row_secid r) EXCLUDED_TICKER_PREFIXES then 0
        else or0Z (row_volume r)))%Z
  /\ sumZ (map (fun kv => numtrades (snd kv)) (aggregate_row agg r))
     = (sumZ (map (fun kv => numtrades (snd kv)) agg)
        + (if startswith (row_secid r) EXCLUDED_TICKER_PREFIXES then 0
           else or0Z (row_numtrades r)))%Z.
Proof.
  unfold aggregate_row.
  destruct (startswith (row_secid r) EXCLUDED_TICKER_PREFIXES) eqn:Hex;
    [split; lia|].
  pose proof (aggregate_row_key_present agg r Hex) as Hkey.
  set (agg1 := if Dict.contains (row_secid r) agg then agg else _) in *.
  assert (Hsame : forall proj : TickerInfo -> Z,
             proj {| shortname := row_shortname r; volume := 0; value := 0;
                     numtrades := 0 |} = 0%Z ->
             sumZ (map (fun kv => proj (snd kv)) agg1)
             = sumZ (map (fun kv => proj (snd kv)) agg)).
  { intros proj Hproj. subst agg1. unfold Dict.contains.
    destruct (Dict.get (row_secid r) agg) eqn:Hget; [reflexivity|].
    rewrite dict_set_fresh.
    - rewrite map_app, sumZ_app. simpl. rewrite Hproj. lia.
    - intros Hin. apply DictFacts.elem_of_keys in Hin. congruence. }
  split.
  - rewrite (sumZ_alter_same volume) by reflexivity.
    rewrite (sumZ_alter_same volume) by reflexivity.
    rewrite (sumZ_alter volume _ (or0Z (row_volume r))); [|reflexivity|exact Hkey].
    rewrite Hsame by reflexivity. reflexivity.
  - rewrite (sumZ_alter numtrades _ (or0Z (row_numtrades r))); [|reflexivity|].
    + rewrite (sumZ_alter_same numtrades) by reflexivity.
      rewrite (sumZ_alter_same numtrades) by reflexivity.
      rewrite Hsame by reflexivity. reflexivity.
    + rewrite !DictFacts.keys_alter. exact Hkey.
Qed.

(** X16.  Aggregation keeps the totals: the volumes of the aggregated
    records add up to the volumes of the rows that are not excluded by
    prefix, null counted as zero, and so do the trade counts; excluded rows
    contribute nothing. *)
Theorem aggregate_ticker_data_totals (raw_data : list Row) :
  let kept := List.filter
                (fun r => negb (startswith (row_secid r) EXCLUDED_TICKER_PREFIXES))
                raw_data in
  sumZ (map (fun kv => volume (snd kv)) (aggregate_ticker_data raw_data))
  = sumZ (map (fun r => or0Z (row_volume r)) kept)
  /\ sumZ (map (fun kv => numtrades (snd kv)) (aggregate_ticker_data raw_data))
     = sumZ (map (fun r => or0Z (row_numtrades r)) kept).
Proof.
  unfold aggregate_ticker_data.
  induction raw_data as [|r raw_data IH] using rev_ind; [split; reflexivity|].
  cbv zeta in *. destruct IH as [IHv IHn].
  rewrite fold_left_app, List.filter_app, !map_app, !sumZ_app. cbn [fold_left].
  destruct (aggregate_row_totals (fold_left aggregate_row raw_data []) r) as [Hv Hn].
  rewrite Hv, Hn, IHv, IHn. cbn [List.filter].
  destruct (startswith (row_secid r) EXCLUDED_TICKER_PREFIXES); simpl; split; lia.
Qed.

Example aggregate_sample_feed_totals :
  sumZ (map (fun kv => volume (snd kv)) (aggregate_ticker_data sample_feed)) = 15%Z
  /\ sumZ (map (fun kv => numtrades (snd kv)) (aggregate_ticker_data sample_feed)) = 5%Z.
Proof. split; reflexivity. Qed.

(** ** Report builder: ranks, periods and the cap on warnings *)







(** ** The analysis run *)

Lemma load_or_fetch_data_ok_cached date force w data w' :
  load_or_fetch_data date force w = (Ok data, w') ->
  exists snap, cache w' !! date = Some snap /\ snap_tickers snap = data.
Proof.
  unfold load_or_fetch_data.
  destruct (if negb force then cache w !! date else None) as [cached|] eqn:Hhit.
  - intros [= <- <-]. destruct force; [discriminate|]. simpl in Hhit. eauto.
  - destruct (fetch_volumes_from_api date w) as [[fetched|e] w1]; [|discriminate].
    intros [= <- <-]. simpl. rewrite lookup_insert_eq. eauto.
Qed.


(** With every date cached and no forcing, the baseline is read from the
    cache and the world stays as it was. *)
Lemma load_base_data_cached base_dates w :
  (forall d, d ∈ base_dates -> is_Some (cache w !! d)) ->
  snd (load_base_data base_dates false w) = w
  /\ length (fst (load_base_data base_dates false w)) = length base_dates.
Proof.
  induction base_dates as [|date base_dates IH]; intros Hall; simpl; [auto|].
  destruct (Hall date ltac:(apply list_elem_of_here)) as [cached Hc].
  unfold load_or_fetch_data. simpl. rewrite Hc.
  destruct IH as [IHw IHl]; [intros d Hd; apply Hall, list_elem_of_further, Hd|].
  destruct (load_base_data base_dates false w) as [base_data w1].
  simpl in *. auto.
Qed.

Section OfflineFacts.
Variable date : string.

Lemma fetch_pages_offline start all_data trace :
  fetch_pages date [] start all_data trace = (None, [], trace ++ [EvRequest date start]).
Proof. reflexivity. Qed.

(** With nothing to answer, every attempt fails on its first request. *)
Lemma fetch_attempts_offline remaining attempt trace :
  (remaining + attempt = S MAX_RETRIES)%nat -> (0 < remaining)%nat ->
  exists events,
    fetch_attempts date remaining attempt [] trace
    = (Raise (FetchFailed date), [], trace ++ events)
    /\ attempts_in events = remaining
    /\ (retry_pauses_in events + 1 = remaining)%nat
    /\ Forall (fetch_event_for [date]) events.
Proof.
  revert attempt trace.
  induction remaining as [|remaining IH]; intros attempt trace Hsum Hpos; [lia|].
  cbn [fetch_attempts fetch_pages].
  destruct (Nat.ltb_spec attempt MAX_RETRIES) as [Hlt|Hge].
  - destruct (IH (S attempt) ((trace ++ [EvRequest date 0]) ++ [EvSleep RETRY_DELAY]))
      as (events & -> & Ha & Hp & Hall); [lia | lia |].
    exists ([EvRequest date 0; EvSleep RETRY_DELAY] ++ events).
    split; [rewrite <- !app_assoc; reflexivity|].
    rewrite attempts_in_app, retry_pauses_in_app, Ha. split; [reflexivity|].
    split; [simpl; lia|].
    apply Forall_app. split; [|exact Hall].
    repeat constructor.
  - assert (remaining = 0%nat) by lia. subst remaining.
    exists [EvRequest date 0]. split; [reflexivity|]. split; [reflexivity|].
    split; [reflexivity|]. repeat constructor.
Qed.
End OfflineFacts.

Lemma fetch_event_for_weaken (dates dates' : list string) (events : list Event) :
  (forall d, d ∈ dates -> d ∈ dates') ->
  Forall (fetch_event_for dates) events -> Forall (fetch_event_for dates') events.
Proof.
  intros Hsub Hall. eapply Forall_impl; [exact Hall|].
  intros [d start|s|d]; simpl; auto.
Qed.

(** With nothing cached for the dates, or when forced, and nothing to
    answer, no baseline date loads: five attempts and four pauses each. *)
Lemma load_base_data_offline base_dates force w :
  force = true \/ (forall d, d ∈ base_dates -> cache w !! d = None) ->
  upstream w = [] ->
  exists events,
    load_base_data base_dates force w
    = ([], {| cache := cache w; upstream := []; trace := trace w ++ events |})
    /\ attempts_in events = (MAX_RETRIES * length base_dates)%nat
    /\ retry_pauses_in events = ((MAX_RETRIES - 1) * length base_dates)%nat
    /\ Forall (fetch_event_for base_dates) events.
Proof.
  revert w. induction base_dates as [|date base_dates IH]; intros w Hmiss Hup.
  - exists []. simpl. rewrite app_nil_r, <- Hup. destruct w. auto.
  - cbn [load_base_data]. unfold load_or_fetch_data, fetch_volumes_from_api.
    assert (Hnone : (if negb force then cache w !! date else None) = None).
    { destruct Hmiss as [-> | Hmiss]; [reflexivity|].
      rewrite (Hmiss date) by apply list_elem_of_here. destruct force; reflexivity. }
    rewrite Hnone, Hup.
    destruct (fetch_attempts_offline date MAX_RETRIES 1 (trace w))
      as (events & -> & Ha & Hp & Hall); [reflexivity | unfold MAX_RETRIES; lia |].
    destruct (IH {| cache := cache w; upstream := []; trace := trace w ++ events |})
      as (events' & -> & Ha' & Hp' & Hall'); [|reflexivity|].
    { destruct Hmiss as [-> | Hmiss]; [auto|]. right. intros d Hd. simpl.
      apply Hmiss, list_elem_of_further, Hd. }
    simpl. exists (events ++ events'). rewrite app_assoc.
    split; [reflexivity|].
    rewrite attempts_in_app, retry_pauses_in_app, Ha, Ha', Hp'.
    unfold MAX_RETRIES in *. cbn [length]. split; [lia|]. split; [lia|].
    apply Forall_app. split.
    + eapply fetch_event_for_weaken; [|exact Hall].
      intros d Hd. apply list_elem_of_singleton in Hd. subst d.
      apply list_elem_of_here.
    + eapply fetch_event_for_weaken; [|exact Hall'].
      intros d Hd. apply list_elem_of_further, Hd.
Qed.

(** X19.  When the exchange cannot be reached and no baseline date can be
    read from the cache, [analyze_date] exits with code 1 after five
    attempts and four retry pauses per baseline date: it neither asks for
    the target date nor writes to the cache, and computes no statistics. *)
Theorem analyze_date_offline
    (sqrt : Q -> Q) (upper : string -> string)
    (format_float : string -> Q -> string) (round_float : Q -> nat -> Q)
    (base_dates : list string) (target_date : string) (force : bool) (w : World) :
  base_dates <> [] ->
  force = true \/ (forall d, d ∈ base_dates -> cache w !! d = None) ->
  upstream w = [] ->
  exists events,
    analyze_date sqrt upper format_float round_float base_dates target_date force w
    = (Exited 1, {| cache := cache w; upstream := []; trace := trace w ++ events |})
    /\ attempts_in events = (5 * length base_dates)%nat
    /\ retry_pauses_in events = (4 * length base_dates)%nat
    /\ Forall (fetch_event_for base_dates) events.
Proof.
  intros Hne Hmiss Hup. unfold analyze_date.
  destruct base_dates as [|d ds]; [congruence|]. cbn [first_item].
  destruct (load_base_data_offline (d :: ds) force w Hmiss Hup)
    as (events & -> & Ha & Hp & Hall).
  exists events. auto.
Qed.

Lemma analyze_date_offline_witness :
  ["2026-01-28"%string; "2026-01-29"%string] <> []
  /\ (false = true
      \/ forall d, d ∈ ["2026-01-28"%string; "2026-01-29"%string] ->
                   cache empty_world !! d = None)
  /\ upstream empty_world = []
  /\ exists events,
       analyze_date sqrt_approx upper_ascii format_plain round_half_up
         ["2026-01-28"%string; "2026-01-29"%string] "2026-01-30" false empty_world
       = (Exited 1, {| cache := cache empty_world; upstream := [];
                       trace := trace empty_world ++ events |})
       /\ attempts_in events = (5 * 2)%nat
       /\ retry_pauses_in events = (4 * 2)%nat
       /\ Forall (fetch_event_for ["2026-01-28"%string; "2026-01-29"%string]) events.
Proof.
  assert (H1 : ["2026-01-28"%string; "2026-01-29"%string] <> []) by discriminate.
  assert (H2 : false = true
               \/ forall d, d ∈ ["2026-01-28"%string; "2026-01-29"%string] ->
                            cache empty_world !! d = None).
  { right. intros d _. apply lookup_empty. }
  split; [exact H1|]. split; [exact H2|]. split; [reflexivity|].
  exact (analyze_date_offline sqrt_approx upper_ascii format_plain round_half_up
           ["2026-01-28"%string; "2026-01-29"%string] "2026-01-30" false
           empty_world H1 H2 eq_refl).
Defined.

(** X20.  A run of [analyze_date] that exits with code 0 has found an empty
    snapshot for the target date, and that empty snapshot is in the cache
    when it exits. *)
Theorem analyze_date_exit_zero
    (sqrt : Q -> Q) (upper : string -> string)
    (format_float : string -> Q -> string) (round_float : Q -> nat -> Q)
    (base_dates : list string) (target_date : string) (force : bool)
    (w w' : World) :
  analyze_date sqrt upper format_float round_float base_dates target_date force w
  = (Exited 0, w') ->
  base_dates <> []
  /\ exists snap,
       cache w' !! target_date = Some snap /\ snap_tickers snap = [].
Proof.
  unfold analyze_date.
  destruct base_dates as [|d ds]; [discriminate|]. cbn [first_item].
  destruct (load_base_data (d :: ds) force w) as [base_data w1].
  destruct base_data as [|day base_data]; [discriminate|].
  destruct (load_or_fetch_data target_date force w1) as [[target_data|e] w2] eqn:Hload;
    [|discriminate].
  destruct target_data as [|item target_data].
  - intros [= <-]. split; [discriminate|].
    exact (load_or_fetch_data_ok_cached target_date force w1 [] w2 Hload).
  - destruct (calculate_statistics_total sqrt upper (day :: base_data)
                (item :: target_data)) as (stats & ws & -> & _).
    unfold save_reports.
    destruct (generate_txt_report _ _ _ _ _ _); [|discriminate].
    destruct (generate_json_report _ _ _ _ _ _); discriminate.
Qed.

Lemma analyze_date_exit_zero_witness :
  analyze_date sqrt_approx upper_ascii format_plain round_half_up
    ["2026-01-30"%string] "2026-01-31" false
    {| cache := cache cached_world; upstream := [Page []]; trace := [] |}
  = (Exited 0,
     {| cache := <["2026-01-31"%string :=
                    {| snap_date := "2026-01-31"; snap_tickers := [] |}]>
                   (cache cached_world);
        upstream := [];
        trace := [EvRequest "2026-01-31" 0; EvCacheWrite "2026-01-31"] |})
  /\ exists snap,
       (<["2026-01-31"%string :=
           {| snap_date := "2026-01-31"; snap_tickers := [] |}]>
          (cache cached_world)) !! "2026-01-31"%string = Some snap
       /\ snap_tickers snap = [].
Proof.
  assert (H : analyze_date sqrt_approx upper_ascii format_plain round_half_up
                ["2026-01-30"%string] "2026-01-31" false
                {| cache := cache cached_world; upstream := [Page []]; trace := [] |}
              = (Exited 0,
                 {| cache := <["2026-01-31"%string :=
                                {| snap_date := "2026-01-31"; snap_tickers := [] |}]>
                               (cache cached_world);
                    upstream := [];
                    trace := [EvRequest "2026-01-31" 0;
                              EvCacheWrite "2026-01-31"] |})).
  { unfold analyze_date. cbn [first_item load_base_data].
    assert (Hc : load_or_fetch_data "2026-01-30" false
                   {| cache := cache cached_world; upstream := [Page []]; trace := [] |}
                 = (Ok sber_target,
                    {| cache := cache cached_world; upstream := [Page []];
                       trace := [] |})).
    { unfold load_or_fetch_data. simpl.
      unfold cached_world. simpl. rewrite lookup_singleton_eq. reflexivity. }
    rewrite Hc.
    assert (Ht : load_or_fetch_data "2026-01-31" false
                   {| cache := cache cached_world; upstream := [Page []]; trace := [] |}
                 = (Ok [],
                    {| cache := <["2026-01-31"%string :=
                                   {| snap_date := "2026-01-31";
                                      snap_tickers := [] |}]>
                                  (cache cached_world);
                       upstream := [];
                       trace := [EvRequest "2026-01-31" 0;
                                 EvCacheWrite "2026-01-31"] |})).
    { unfold load_or_fetch_data. simpl. unfold cached_world. simpl.
      rewrite lookup_singleton_ne by discriminate. reflexivity. }
    unfold sber_target at 1. rewrite Ht. reflexivity. }
  split; [exact H|].
  exact (proj2 (analyze_date_exit_zero sqrt_approx upper_ascii format_plain
                  round_half_up _ _ _ _ _ H)).
Defined.




(** X22.  With [force=False] and the target date and every baseline date
    in the cache, a run of [analyze_date] sends no request, sleeps for no
    retry and writes nothing to the cache: it leaves the world as it found
    it. *)
Theorem analyze_date_from_cache
    (sqrt : Q -> Q) (upper : string -> string)
    (format_float : string -> Q -> string) (round_float : Q -> nat -> Q)
    (base_dates : list string) (target_date : string) (w : World) :
  (forall d, d ∈ target_date :: base_dates -> is_Some (cache w !! d)) ->
  snd (analyze_date sqrt upper format_float round_float base_dates target_date
         false w) = w.
Proof.
  intros Hall. unfold analyze_date.
  destruct (first_item base_dates); [|reflexivity].
  destruct (load_base_data_cached base_dates w) as [Hw _].
  { intros d Hd. apply Hall, list_elem_of_further, Hd. }
  destruct (load_base_data base_dates false w) as [base_data w1].
  simpl in Hw. subst w1.
  destruct base_data as [|day base_data]; [reflexivity|].
  destruct (Hall target_date ltac:(apply list_elem_of_here)) as [cached Hc].
  unfold load_or_fetch_data. simpl. rewrite Hc.
  destruct (snap_tickers cached) as [|item target_data]; [reflexivity|].
  destruct (calculate_statistics _ _ _ _) as [[stats ws]|e]; reflexivity.
Qed.

Lemma analyze_date_from_cache_witness :
  (forall d, d ∈ ["2026-01-30"%string; "2026-01-29"%string] ->
             is_Some (cache two_day_world !! d))
  /\ snd (analyze_date sqrt_approx upper_ascii format_plain round_half_up
            ["2026-01-29"%string] "2026-01-30" false two_day_world)
     = two_day_world.
Proof.
  assert (H : forall d, d ∈ ["2026-01-30"%string; "2026-01-29"%string] ->
                        is_Some (cache two_day_world !! d)).
  { intros d Hd. apply list_elem_of_In in Hd. simpl in Hd.
    destruct Hd as [<-|[<-|[]]]; unfold two_day_world; simpl.
    - rewrite lookup_insert_ne by discriminate. eexists. apply lookup_singleton_eq.
    - eexists. apply lookup_insert_eq. }
  split; [exact H|].
  exact (analyze_date_from_cache sqrt_approx upper_ascii format_plain round_half_up
           ["2026-01-29"%string] "2026-01-30" two_day_world H).
Defined.

(** X23.  From the date string: a string that is no date ends the run with
    exit code 1 and leaves the world alone; for a target day later than
    day 18 the run goes on with a baseline of exactly five dates, the
    renderings of the five most recent working days before the target day,
    oldest first. *)
Theorem analyze_date_from_string_baseline
    (sqrt : Q -> Q) (upper : string -> string)
    (format_float : string -> Q -> string) (round_float : Q -> nat -> Q)
    (strptime : string -> option nat) (strftime : nat -> string)
    (target_date : string) (force : bool) (w : World) :
  (strptime target_date = None ->
   analyze_date_from_string sqrt upper format_float round_float strptime strftime
     target_date force w = Some (Exited 1, w))
  /\ (forall target_dt,
        strptime target_date = Some target_dt -> (18 < target_dt)%nat ->
        exists ds low,
          analyze_date_from_string sqrt upper format_float round_float strptime
            strftime target_date force w
          = Some (analyze_date sqrt upper format_float round_float
                    (map strftime ds) target_date force w)
          /\ length ds = 5%nat
          /\ StronglySorted lt ds
          /\ (forall d, d ∈ ds -> (low < d < target_dt)%nat /\ (weekday d < 5)%nat)
          /\ (forall d, (low < d < target_dt)%nat -> (weekday d < 5)%nat -> d ∈ ds)).
Proof.
  split.
  - intros Hparse. unfold analyze_date_from_string. rewrite Hparse. reflexivity.
  - intros target_dt Hparse Hlate. unfold analyze_date_from_string. rewrite Hparse.
    destruct target_dt as [|yesterday]; [lia|].
    destruct (Nat.eqb_spec yesterday 0); [lia|].
    unfold get_trading_dates. change (@nil string) with (map strftime []).
    rewrite trading_dates_loop_days.
    destruct (trading_days_loop_returns 5 yesterday []) as [out Hloop].
    { right. simpl length.
      destruct (weekday yesterday =? 6)%nat; [lia|].
      destruct (weekday yesterday =? 5)%nat; lia. }
    rewrite Hloop. simpl option_map. cbv iota beta.
    apply (trading_days_loop_spec 5 yesterday) in Hloop
      as (Hlen & Hsorted & low & Hin & Hall);
      [| lia | simpl; lia | intros d Hd; inversion Hd | constructor
       | intros d Hd; lia].
    exists (rev out), low. rewrite map_rev. split; [reflexivity|].
    split; [rewrite length_rev; lia|].
    split; [apply StronglySorted_gt_rev, Hsorted|]. split.
    + intros d Hd.
      assert (Hd' : d ∈ out) by (apply list_elem_of_In, in_rev, list_elem_of_In, Hd).
      apply Hin in Hd'. lia.
    + intros d Hd Hw. apply list_elem_of_In. rewrite <- in_rev.
      apply list_elem_of_In, Hall; [lia | exact Hw].
Qed.

Lemma analyze_date_from_string_baseline_witness :
  parse_day "40" = Some 40%nat
  /\ (18 < 40)%nat
  /\ parse_day "tomorrow" = None
  /\ analyze_date_from_string sqrt_approx upper_ascii format_plain round_half_up
       parse_day str_nat "tomorrow" false empty_world = Some (Exited 1, empty_world)
  /\ exists ds low,
       analyze_date_from_string sqrt_approx upper_ascii format_plain round_half_up
         parse_day str_nat "40" false empty_world
       = Some (analyze_date sqrt_approx upper_ascii format_plain round_half_up
                 (map str_nat ds) "40" false empty_world)
       /\ length ds = 5%nat
       /\ StronglySorted lt ds
       /\ (forall d, d ∈ ds -> (low < d < 40)%nat /\ (weekday d < 5)%nat)
       /\ (forall d, (low < d < 40)%nat -> (weekday d < 5)%nat -> d ∈ ds).
Proof.
  assert (H1 : parse_day "40" = Some 40%nat) by reflexivity.
  assert (H2 : (18 < 40)%nat) by lia.
  assert (H3 : parse_day "tomorrow" = None) by reflexivity.
  split; [exact H1|]. split; [exact H2|]. split; [exact H3|]. split.
  - exact (proj1 (analyze_date_from_string_baseline sqrt_approx upper_ascii
                    format_plain round_half_up parse_day str_nat "tomorrow" false
                    empty_world) H3).
  - exact (proj2 (analyze_date_from_string_baseline sqrt_approx upper_ascii
                    format_plain round_half_up parse_day str_nat "40" false
                    empty_world) 40%nat H1 H2).
Defined.
